(** * scripts/fetch_burnt_areas.py: EFFIS burnt-area bundles

    A shallow embedding of the script and the properties of its
    fetch / parse / transform / write pipeline.

    - [Py] holds the Python built-ins the script calls (str methods,
      [float], [sum], [range], list indexing, [datetime.strptime]).
      Text is a [string] of code points below 256; a Python float is a
      binary64 value, here Rocq's primitive [float].
    - [ET] holds the part of [xml.etree.ElementTree] the script uses.
    - The script's own functions follow, under their own names. *)

From Stdlib Require Import ZArith List String Ascii Bool Lia Permutation.
From Stdlib Require Import PrimFloat SpecFloat FloatOps.
From Stdlib Require Import DecimalString DecimalZ.
Import ListNotations.

#[local] Set Warnings "-inexact-float,-register-all".

Local Open Scope list_scope.
Local Open Scope string_scope.
Local Open Scope Z_scope.

(* ================================================================= *)
(** ** Python built-ins *)

Module Py.

(** Exceptions that the calls of the script can raise. *)
Inductive exn : Type :=
| ValueError
| IndexError
| ZeroDivisionError
| OSError
| ParseError          (* xml.etree.ElementTree.ParseError *)
| RequestException.   (* requests.RequestException and its subclasses *)

(** A computation that returns or raises. *)
Inductive result (A : Type) : Type :=
| Ok (a : A)
| Raise (e : exn).
Arguments Ok {A} a.
Arguments Raise {A} e.

Definition bind {A B} (r : result A) (k : A -> result B) : result B :=
  match r with
  | Ok a => k a
  | Raise e => Raise e
  end.

Declare Scope py_scope.
Delimit Scope py_scope with py.
Notation "x <- c ;; k" := (bind c (fun x => k))
  (at level 61, c at next level, right associativity) : py_scope.

(** [[f(x) for x in xs]] for an [f] that may raise. *)
Fixpoint mapM {A B} (f : A -> result B) (xs : list A) : result (list B) :=
  match xs with
  | [] => Ok []
  | x :: xs' =>
      match f x with
      | Raise e => Raise e
      | Ok y =>
          match mapM f xs' with
          | Raise e => Raise e
          | Ok ys => Ok (y :: ys)
          end
      end
  end.

(* ----------------------------------------------------------------- *)
(** *** Characters and strings *)

Definition code (c : ascii) : Z := Z.of_N (N_of_ascii c).

Definition in_range (lo hi : Z) (c : ascii) : bool :=
  (lo <=? code c) && (code c <=? hi).

(** [str.isspace] on one character: the white space of [str.split] and
    [str.strip]. *)
Definition isspace (c : ascii) : bool :=
  in_range 9 13 c || in_range 28 32 c
  || (code c =? 133) || (code c =? 160).

Definition isdigit (c : ascii) : bool := in_range 48 57 c.

Definition digit_val (c : ascii) : Z := code c - 48.

Fixpoint lstrip_by (p : ascii -> bool) (s : list ascii) : list ascii :=
  match s with
  | c :: s' => if p c then lstrip_by p s' else s
  | [] => []
  end.

Definition strip_by (p : ascii -> bool) (s : list ascii) : list ascii :=
  rev (lstrip_by p (rev (lstrip_by p s))).

(** [s.strip()] *)
Definition strip (s : string) : string :=
  string_of_list_ascii (strip_by isspace (list_ascii_of_string s)).

(** [s.split()]: the maximal runs of characters that are not white
    space, in order; [cur] is the run being read, reversed. *)
Fixpoint split_go (cur : list ascii) (s : list ascii) : list string :=
  match s with
  | [] =>
      match cur with
      | [] => []
      | _ => [string_of_list_ascii (rev cur)]
      end
  | c :: s' =>
      if isspace c then
        match cur with
        | [] => split_go [] s'
        | _ => string_of_list_ascii (rev cur) :: split_go [] s'
        end
      else split_go (c :: cur) s'
  end.

Definition split (s : string) : list string :=
  split_go [] (list_ascii_of_string s).

(** [len(s)] and [s[:n]] *)
Definition len (s : string) : Z := Z.of_nat (String.length s).

Definition slice_to (n : nat) (s : string) : string := substring 0 n s.

(** [not s]: the empty string is false. *)
Definition truthy (s : string) : bool :=
  match s with
  | EmptyString => false
  | _ => true
  end.

(** [a or b] on strings *)
Definition str_or (a b : string) : string := if truthy a then a else b.

(** [f'{n}'] for an int *)
Definition str_of_int (n : Z) : string :=
  NilEmpty.string_of_int (Z.to_int n).

(* ----------------------------------------------------------------- *)
(** *** Floats *)

(** The binary64 value nearest to [(-1)^neg * m * 10^e10], ties to
    even; beyond the range it is an infinity or a zero. *)
Definition round_decimal (neg : bool) (m : Z) (e10 : Z) : float :=
  match m with
  | Zpos p =>
      if 0 <=? e10 then
        SF2Prim (binary_normalize prec emax
                   (if neg then - (m * 10 ^ e10) else m * 10 ^ e10) 0 false)
      else
        SF2Prim (SFdiv prec emax (S754_finite neg p 0)
                   (S754_finite false (Z.to_pos (10 ^ (- e10))) 0))
  | _ => if neg then neg_zero else zero
  end.

(** [float(n)] for an int (a list length here, far below the
    magnitude at which Python raises OverflowError). *)
Definition float_of_int (n : Z) : float :=
  SF2Prim (binary_normalize prec emax n 0 false).

Fixpoint span (p : ascii -> bool) (s : list ascii) : list ascii * list ascii :=
  match s with
  | c :: s' =>
      if p c then let '(a, b) := span p s' in (c :: a, b) else ([], s)
  | [] => ([], [])
  end.

Definition digits_val (ds : list ascii) : Z :=
  fold_left (fun a c => 10 * a + digit_val c) ds 0.

Definition lower (c : ascii) : ascii :=
  if in_range 65 90 c then ascii_of_N (N_of_ascii c + 32) else c.

(** An optional sign: [(negative, rest)]. *)
Definition take_sign (s : list ascii) : bool * list ascii :=
  match s with
  | "-"%char :: r => (true, r)
  | "+"%char :: r => (false, r)
  | _ => (false, s)
  end.

(** [float] accepts underscores between digits only; they are dropped
    before the number is read.  [prev] is the previous character. *)
Fixpoint drop_underscores (prev : ascii) (s : list ascii) : option (list ascii) :=
  match s with
  | [] => if Ascii.eqb prev "_" then None else Some []
  | c :: s' =>
      if Ascii.eqb c "_" then
        if isdigit prev then drop_underscores c s' else None
      else if Ascii.eqb prev "_" && negb (isdigit c) then None
      else option_map (cons c) (drop_underscores c s')
  end.

(** White space that [float] strips around the number. *)
Definition float_space (c : ascii) : bool :=
  in_range 9 13 c || (code c =? 32) || (code c =? 133) || (code c =? 160).

(** The exponent part: empty, or [e]/[E], an optional sign and at least
    one digit, up to the end of the text. *)
Definition parse_exponent (s : list ascii) : option Z :=
  match s with
  | [] => Some 0
  | c :: r =>
      if Ascii.eqb (lower c) "e" then
        let '(eneg, r1) := take_sign r in
        let '(ds, r2) := span isdigit r1 in
        match ds, r2 with
        | _ :: _, [] => Some (if eneg then - digits_val ds else digits_val ds)
        | _, _ => None
        end
      else None
  end.

(** A number in decimal notation, [inf], [infinity] or [nan], with an
    optional sign; the whole text must be used. *)
Definition parse_float_body (s : list ascii) : option float :=
  let '(neg, s1) := take_sign s in
  let '(ip, s2) := span isdigit s1 in
  let '(fp, s3) :=
    match s2 with
    | "."%char :: r => span isdigit r
    | _ => ([], s2)
    end in
  match (ip ++ fp)%list with
  | [] =>
      let w := string_of_list_ascii (map lower s1) in
      if String.eqb w "inf" || String.eqb w "infinity" then
        Some (if neg then neg_infinity else infinity)
      else if String.eqb w "nan" then Some nan
      else None
  | ds =>
      match parse_exponent s3 with
      | Some e =>
          Some (round_decimal neg (digits_val ds) (e - Z.of_nat (List.length fp)))
      | None => None
      end
  end.

(** The value of [float(s)] for a string, if it has one. *)
Definition parse_float (s : string) : option float :=
  match drop_underscores "000"%char (list_ascii_of_string s) with
  | None => None
  | Some t => parse_float_body (strip_by float_space t)
  end.

(** [float(s)]: ValueError when the text is not a number. *)
Definition float_of_string (s : string) : result float :=
  match parse_float s with
  | Some x => Ok x
  | None => Raise ValueError
  end.

(** What CPython's [sum] does with floats: additions from left to right
    up to 3.11; from 3.12 on, Neumaier's compensated summation. *)
Inductive SumAlgorithm : Type :=
| LeftToRight
| Compensated.

(** One step of the compensated sum: [(total, c)] and the next item. *)
Definition cs_add (tc : float * float) (x : float) : float * float :=
  let '(total, c) := tc in
  let t := (total + x)%float in
  if (abs x <=? abs total)%float
  then (t, (c + ((total - t) + x))%float)
  else (t, (c + ((x - t) + total))%float).

Definition cs_to_double (tc : float * float) : float :=
  let '(total, c) := tc in
  if negb (c =? zero)%float && is_finite c then (total + c)%float else total.

(** [sum(xs)] for a list of floats.  The start value is the int [0];
    the first item is added to it, the others to the running float.
    (For the empty list Python returns the int [0], here [zero].) *)
Definition sum (alg : SumAlgorithm) (xs : list float) : float :=
  match xs with
  | [] => zero
  | x :: rest =>
      let first := (zero + x)%float in
      match alg with
      | LeftToRight => fold_left PrimFloat.add rest first
      | Compensated => cs_to_double (fold_left cs_add rest (first, zero))
      end
  end.

(** [x / n] for a float [x] and an int [n]: the int is converted, and a
    zero divisor raises. *)
Definition truediv (x : float) (n : Z) : result float :=
  if n =? 0 then Raise ZeroDivisionError
  else Ok (x / float_of_int n)%float.

(* ----------------------------------------------------------------- *)
(** *** Lists *)

(** [range(start, stop, step)] for a positive [step]. *)
Definition range (start stop step : Z) : list Z :=
  map (fun i => start + Z.of_nat i * step)
      (seq 0 (Z.to_nat ((stop - start + step - 1) / step))).

(** [xs[i]]: a negative index counts from the end; outside the list,
    IndexError. *)
Definition index {A} (xs : list A) (i : Z) : result A :=
  let n := Z.of_nat (List.length xs) in
  let j := if i <? 0 then i + n else i in
  if (j <? 0) || (n <=? j) then Raise IndexError
  else
    match nth_error xs (Z.to_nat j) with
    | Some x => Ok x
    | None => Raise IndexError
    end.

(* ----------------------------------------------------------------- *)
(** *** Dates *)

Definition is_leap (y : Z) : bool :=
  ((y mod 4 =? 0) && negb (y mod 100 =? 0)) || (y mod 400 =? 0).

Definition days_in_month (y m : Z) : Z :=
  if m =? 2 then (if is_leap y then 29 else 28)
  else if (m =? 4) || (m =? 6) || (m =? 9) || (m =? 11) then 30
  else 31.

(** The alternatives of [%m], the pattern [1[0-2]|0[1-9]|[1-9]], that
    match at the head of [s], in the order the pattern tries them, each
    with the text left over. *)
Definition month_alts (s : list ascii) : list (Z * list ascii) :=
  ((match s with
   | "1"%char :: c :: r =>
       if in_range 48 50 c then [(10 + digit_val c, r)] else []
   | _ => []
   end)
  ++ (match s with
      | "0"%char :: c :: r =>
          if in_range 49 57 c then [(digit_val c, r)] else []
      | _ => []
      end)
  ++ (match s with
      | c :: r => if in_range 49 57 c then [(digit_val c, r)] else []
      | _ => []
      end))%list.

(** The same for [%d], the pattern [3[0-1]|[1-2]\d|0[1-9]|[1-9]| [1-9]]. *)
Definition day_alts (s : list ascii) : list (Z * list ascii) :=
  ((match s with
   | "3"%char :: c :: r =>
       if in_range 48 49 c then [(30 + digit_val c, r)] else []
   | _ => []
   end)
  ++ (match s with
      | c1 :: c2 :: r =>
          if in_range 49 50 c1 && isdigit c2
          then [(10 * digit_val c1 + digit_val c2, r)] else []
      | _ => []
      end)
  ++ (match s with
      | "0"%char :: c :: r =>
          if in_range 49 57 c then [(digit_val c, r)] else []
      | _ => []
      end)
  ++ (match s with
      | c :: r => if in_range 49 57 c then [(digit_val c, r)] else []
      | _ => []
      end)
  ++ (match s with
      | " "%char :: c :: r =>
          if in_range 49 57 c then [(digit_val c, r)] else []
      | _ => []
      end))%list.

(** The first month alternative after which [-] and a day match, with
    the day the pattern then takes and the text left over. *)
Fixpoint match_month_day (alts : list (Z * list ascii))
  : option (Z * Z * list ascii) :=
  match alts with
  | [] => None
  | (m, "-"%char :: r) :: alts' =>
      match day_alts r with
      | (d, r') :: _ => Some (m, d, r')
      | [] => match_month_day alts'
      end
  | _ :: alts' => match_month_day alts'
  end.

(** The date [(year, month, day)] that the pattern [\d\d\d\d-%m-%d]
    reads from a text: it must match from the start with nothing left
    over, and name a date that exists (the years start at 1). *)
Definition parse_Ymd (s : string) : option (Z * Z * Z) :=
  match list_ascii_of_string s with
  | y1 :: y2 :: y3 :: y4 :: "-"%char :: r =>
      if isdigit y1 && isdigit y2 && isdigit y3 && isdigit y4 then
        match match_month_day (month_alts r) with
        | Some (m, d, []) =>
            let y := digits_val [y1; y2; y3; y4] in
            if (1 <=? y) && (d <=? days_in_month y m) then Some (y, m, d) else None
        | _ => None
        end
      else None
  | _ => None
  end.

(** [datetime.strptime(s, '%Y-%m-%d')], as a date: ValueError when the
    text does not read as one. *)
Definition strptime_Ymd (s : string) : result (Z * Z * Z) :=
  match parse_Ymd s with
  | Some d => Ok d
  | None => Raise ValueError
  end.

(** [n] in decimal, padded with zeros on the left to [width] digits
    ([%04d], [%02d]) for [0 <= n]. *)
Definition zero_pad (width : nat) (n : Z) : string :=
  let s := str_of_int n in
  string_of_list_ascii (repeat "0"%char (width - String.length s)) ++ s.

(** [d.isoformat()[:10]] for a datetime of the date [d]. *)
Definition isoformat_date (d : Z * Z * Z) : string :=
  let '(y, m, dd) := d in
  zero_pad 4 y ++ "-" ++ zero_pad 2 m ++ "-" ++ zero_pad 2 dd.

End Py.

(* ================================================================= *)
(** ** xml.etree.ElementTree *)

Module ET.

(** An element: its tag in the form [{uri}local], its attributes, its
    text (which may be missing) and its children in document order. *)
Inductive Element : Type :=
| Elem (tag : string) (attrib : list (string * string))
       (text : option string) (children : list Element).

Definition tag (e : Element) : string :=
  match e with Elem t _ _ _ => t end.
Definition attrib (e : Element) : list (string * string) :=
  match e with Elem _ a _ _ => a end.
Definition text (e : Element) : option string :=
  match e with Elem _ _ x _ => x end.
Definition children (e : Element) : list Element :=
  match e with Elem _ _ _ cs => cs end.

(** [d.get(key)] on an association list *)
Fixpoint lookup {A} (key : string) (d : list (string * A)) : option A :=
  match d with
  | [] => None
  | (k, v) :: d' => if String.eqb k key then Some v else lookup key d'
  end.

(** [elem.get(key, default)] *)
Definition get (e : Element) (key default : string) : string :=
  match lookup key (attrib e) with
  | Some v => v
  | None => default
  end.

(** [elem.iter()]: the element and all below it, in document order. *)
Fixpoint iter (e : Element) : list Element :=
  match e with
  | Elem _ _ _ cs => e :: flat_map iter cs
  end.

(** The path [.//prefix:local]. *)
Record Path : Type := Descendant { prefix : string; local : string }.

(** The tag a path names under a prefix map.  (For a prefix that the
    map lacks ElementTree raises; the script uses the three prefixes of
    its own map only, and here such a path names no tag.) *)
Definition qname (namespaces : list (string * string)) (p : Path) : option string :=
  match lookup (prefix p) namespaces with
  | Some uri => Some ("{" ++ uri ++ "}" ++ local p)
  | None => None
  end.

(** [elem.findall(path, namespaces)]: the elements strictly below
    [elem] with the tag of the path, in document order. *)
Definition findall (e : Element) (p : Path) (namespaces : list (string * string))
  : list Element :=
  match qname namespaces p with
  | Some t => filter (fun d => String.eqb (tag d) t) (flat_map iter (children e))
  | None => []
  end.

(** [elem.find(path, namespaces)]: the first of them, if any. *)
Definition find (e : Element) (p : Path) (namespaces : list (string * string))
  : option Element :=
  hd_error (findall e p namespaces).

(** [elem.findtext(path, default, namespaces)]: the text of the first
    match, the empty string if it has no text, [default] without a
    match. *)
Definition findtext (e : Element) (p : Path) (default : string)
  (namespaces : list (string * string)) : string :=
  match find e p namespaces with
  | None => default
  | Some d =>
      match text d with
      | Some t => t
      | None => ""
      end
  end.

End ET.

(* ================================================================= *)
(** ** The script *)

Import Py.
Local Open Scope py_scope.

Definition EFFIS_URL : string := "https://maps.effis.emergency.copernicus.eu/effis".

Definition UK_BBOX : string := "-12,49,3,62".

Definition USER_AGENT : string := "WildFire/0.1 (prototype; burnt-area-bundle-update)".

Definition NAMESPACES : list (string * string) :=
  [ ("wfs", "http://www.opengis.net/wfs/2.0");
    ("gml", "http://www.opengis.net/gml/3.2");
    ("ba", "http://effis.jrc.ec.europa.eu/burnt_area") ].

(** A point [[lon, lat]]. *)
Definition Point : Type := (float * float)%type.

(** The dict that [parse_burnt_area_feature] returns; [fid] is its
    ['id']. *)
Record Feature : Type := mkFeature {
  fid : string;
  centroid : Point;
  boundaryPoints : list Point;
  areaHectares : float;
  fireDate : option string;
  seasonYear : Z
}.

(** The loop that groups the coordinates in pairs:
    [for i in range(0, len(coords_list) - 1, 2)], reading
    [coords_list[i]] and [coords_list[i + 1]] and appending
    [[lon, lat]]. *)
Fixpoint pair_loop (coords_list : list float) (indices : list Z)
  (boundary_points : list Point) : result (list Point) :=
  match indices with
  | [] => Ok boundary_points
  | i :: indices' =>
      lat <- index coords_list i ;;
      lon <- index coords_list (i + 1) ;;
      pair_loop coords_list indices' (boundary_points ++ [(lon, lat)])%list
  end.

Definition group_pairs (coords_list : list float) : result (list Point) :=
  pair_loop coords_list
    (range 0 (Z.of_nat (List.length coords_list) - 1) 2) [].

(** The fire date of a feature from the text of [ba:firedate]: the
    inner [try], whose [except] catches ValueError alone. *)
Definition parse_fire_date (fire_date_str : string) : result (option string) :=
  if truthy fire_date_str then
    match strptime_Ymd (slice_to 10 fire_date_str) with
    | Ok d => Ok (Some (isoformat_date d))
    | Raise ValueError =>
        Ok (if 10 <=? len fire_date_str
            then Some (slice_to 10 fire_date_str) else None)
    | Raise e => Raise e
    end
  else Ok None.

(** The body of the [try] of [parse_burnt_area_feature]. *)
Definition parse_feature_body (alg : SumAlgorithm) (elem : ET.Element) (year : Z)
  : result (option Feature) :=
  let fid := ET.get elem "{http://www.opengis.net/gml/3.2}id" "" in
  match ET.find elem (ET.Descendant "gml" "posList") NAMESPACES with
  | None => Ok None
  | Some coords_elem =>
      match ET.text coords_elem with
      | None => Ok None
      | Some coords_elem_text =>
          if negb (truthy coords_elem_text) then Ok None else
          let coords_text := strip coords_elem_text in
          coords_list <- mapM float_of_string (split coords_text) ;;
          boundary_points <- group_pairs coords_list ;;
          if Z.of_nat (List.length boundary_points) <? 3 then Ok None else
          area_ha <- float_of_string
            (str_or (ET.findtext elem (ET.Descendant "ba" "area_ha") "0" NAMESPACES) "0") ;;
          let fire_date_str :=
            str_or (ET.findtext elem (ET.Descendant "ba" "firedate") "" NAMESPACES) "" in
          fire_date <- parse_fire_date fire_date_str ;;
          let lons := map fst boundary_points in
          let lats := map snd boundary_points in
          centroid_lon <- truediv (sum alg lons) (Z.of_nat (List.length lons)) ;;
          centroid_lat <- truediv (sum alg lats) (Z.of_nat (List.length lats)) ;;
          Ok (Some {| fid := fid;
                      centroid := (centroid_lon, centroid_lat);
                      boundaryPoints := boundary_points;
                      areaHectares := area_ha;
                      fireDate := fire_date;
                      seasonYear := year |})
      end
  end.

(** [parse_burnt_area_feature]: any exception of the body is caught and
    the feature is given up. *)
Definition parse_burnt_area_feature (alg : SumAlgorithm) (elem : ET.Element) (year : Z)
  : option Feature :=
  match parse_feature_body alg elem year with
  | Ok r => r
  | Raise _ => None
  end.

(** [parse_gml_response], the loop over the members: [features] is the
    list built so far. *)
Fixpoint members_loop (alg : SumAlgorithm) (year : Z)
  (members : list ET.Element) (features : list Feature) : list Feature :=
  match members with
  | [] => features
  | member :: members' =>
      match ET.find member
              (ET.Descendant "ba" ("burnt_area_" ++ str_of_int year)) NAMESPACES with
      | None => members_loop alg year members' features
      | Some ba_elem =>
          match parse_burnt_area_feature alg ba_elem year with
          | Some feature => members_loop alg year members' (features ++ [feature])%list
          | None => members_loop alg year members' features
          end
      end
  end.

(* ----------------------------------------------------------------- *)
(** *** The world around the script *)

(** The call [requests.get(url, params=..., headers=..., timeout=...)]. *)
Record Request : Type := mkRequest {
  url : string;
  params : list (string * string);
  headers : list (string * string);
  timeout : Z
}.

Record Response : Type := mkResponse {
  status_code : Z;
  response_text : string
}.

(** [response.raise_for_status()]: HTTPError, a RequestException, for
    the client and server error codes. *)
Definition raise_for_status (r : Response) : result unit :=
  if (400 <=? status_code r) && (status_code r <? 600)
  then Raise RequestException else Ok tt.

(** What a run finds around it.  The clock is read anew by every call of
    [save_bundle]; [main] calls it at most once for a year, for the two
    different years of its loop, so the readings of a run are given by
    the year of the call: [utcnow_isoformat E year] is what
    [datetime.utcnow().isoformat()] returns inside [save_bundle(_, year, _)].
    The readings for two years need not be equal. *)
Record Env : Type := mkEnv {
  sum_algorithm : SumAlgorithm;                 (* the interpreter's [sum] *)
  requests_get : Request -> result Response;    (* the network *)
  fromstring : string -> result ET.Element;     (* [ET.fromstring] *)
  now_year : Z;                                 (* [datetime.now().year] *)
  utcnow_isoformat : Z -> string;               (* the clock, by the year saved *)
  script_dir : string;        (* [os.path.dirname(os.path.abspath(__file__))] *)
  github_output : option string;                (* [os.environ.get('GITHUB_OUTPUT')] *)
  can_makedirs : string -> bool;                (* [os.makedirs] succeeds *)
  can_open : string -> bool                     (* [open] for writing succeeds *)
}.

(** What [json.dump] writes. *)
Inductive json : Type :=
| JNull
| JInt (n : Z)
| JFloat (x : float)
| JStr (s : string)
| JArr (items : list json)
| JObj (members : list (string * json)).

(** What a run does to the world, in order.  Console output is left
    out. *)
Inductive Event : Type :=
| HttpGet (r : Request)
| Makedirs (path : string)
| WriteJson (path : string) (content : json)      (* [open(path, 'w')], [json.dump] *)
| AppendText (path : string) (lines : list string). (* [open(path, 'a')], [f.write] *)

(** An action: the events it causes, then its value or exception. *)
Definition IO (A : Type) : Type := (list Event * result A)%type.

Definition ret {A} (a : A) : IO A := ([], Ok a).

Definition raise {A} (e : exn) : IO A := ([], Raise e).

Definition emit (ev : Event) : IO unit := ([ev], Ok tt).

Definition io_bind {A B} (m : IO A) (k : A -> IO B) : IO B :=
  match m with
  | (evs, Ok a) => let '(evs', r) := k a in ((evs ++ evs')%list, r)
  | (evs, Raise e) => (evs, Raise e)
  end.

Declare Scope io_scope.
Delimit Scope io_scope with io.
Notation "x <-- c ;; k" := (io_bind c (fun x => k))
  (at level 61, c at next level, right associativity) : io_scope.
Notation "c ;;; k" := (io_bind c (fun _ => k))
  (at level 61, right associativity) : io_scope.
Local Open Scope io_scope.

Definition events {A} (m : IO A) : list Event := fst m.
Definition outcome {A} (m : IO A) : result A := snd m.

(** [os.path.join(a, b)] *)
Definition path_join (a b : string) : string :=
  match b with
  | String "/" _ => b
  | _ =>
      if negb (truthy a) || Ascii.eqb (last (list_ascii_of_string a) "000"%char) "/"
      then a ++ b else a ++ "/" ++ b
  end.

(* ----------------------------------------------------------------- *)
(** *** Fetching and parsing *)

Definition parse_gml_response (E : Env) (gml_text : string) (year : Z)
  : result (list Feature) :=
  match fromstring E gml_text with
  | Raise ParseError => Ok []
  | Raise e => Raise e
  | Ok root =>
      Ok (members_loop (sum_algorithm E) year
            (ET.findall root (ET.Descendant "wfs" "member") NAMESPACES) [])
  end.

Definition wfs_request (year : Z) : Request :=
  {| url := EFFIS_URL;
     params :=
       [ ("service", "WFS");
         ("version", "2.0.0");
         ("request", "GetFeature");
         ("typeName", "ba:burnt_area_" ++ str_of_int year);
         ("outputFormat", "application/gml+xml; version=3.2");
         ("srsName", "EPSG:4326");
         ("bbox", UK_BBOX ++ ",EPSG:4326") ];
     headers := [ ("User-Agent", USER_AGENT); ("Accept", "application/gml+xml") ];
     timeout := 120 |}.

Definition fetch_burnt_areas (E : Env) (year : Z) : IO (list Feature) :=
  emit (HttpGet (wfs_request year)) ;;;
  match (response <- requests_get E (wfs_request year) ;;
         _ <- raise_for_status response ;;
         Ok response)%py with
  | Raise RequestException => ret []
  | Raise e => raise e
  | Ok response =>
      match parse_gml_response E (response_text response) year with
      | Ok features => ret features
      | Raise e => raise e
      end
  end.

(* ----------------------------------------------------------------- *)
(** *** Writing *)

Definition json_of_point (p : Point) : json := JArr [JFloat (fst p); JFloat (snd p)].

Definition json_of_feature (f : Feature) : json :=
  JObj [ ("id", JStr (fid f));
         ("centroid", json_of_point (centroid f));
         ("boundaryPoints", JArr (map json_of_point (boundaryPoints f)));
         ("areaHectares", JFloat (areaHectares f));
         ("fireDate", match fireDate f with Some d => JStr d | None => JNull end);
         ("seasonYear", JInt (seasonYear f)) ].

Definition bundle_filename (year : Z) : string :=
  "burnt_areas_" ++ str_of_int year ++ "_uk.json".

(** [generatedAt] is the reading of the clock taken by this call. *)
Definition save_bundle (E : Env) (features : list Feature) (year : Z)
  (output_dir : string) : IO string :=
  let bundle :=
    JObj [ ("year", JInt year);
           ("region", JStr "UK");
           ("generatedAt", JStr (utcnow_isoformat E year ++ "Z"));
           ("featureCount", JInt (Z.of_nat (List.length features)));
           ("features", JArr (map json_of_feature features)) ] in
  let filename := bundle_filename year in
  let filepath := path_join output_dir filename in
  (if can_open E filepath then emit (WriteJson filepath bundle) else raise OSError) ;;;
  ret filepath.

(* ----------------------------------------------------------------- *)
(** *** Main *)

(** [for year in years: ...], the body of the loop of [main]. *)
Fixpoint year_loop (E : Env) (output_dir : string) (years : list Z) : IO unit :=
  match years with
  | [] => ret tt
  | year :: years' =>
      features <-- fetch_burnt_areas E year ;;
      (match features with
       | _ :: _ => save_bundle E features year output_dir ;;; ret tt
       | [] => ret tt
       end) ;;;
      year_loop E output_dir years'
  end.

Definition main (E : Env) : IO Z :=
  let current_year := now_year E in
  let previous_year := current_year - 1 in
  let output_dir :=
    path_join (path_join (path_join (script_dir E) "..") "assets") "cache" in
  (if can_makedirs E output_dir then emit (Makedirs output_dir) else raise OSError) ;;;
  let success := true in
  year_loop E output_dir [previous_year; current_year] ;;;
  (match github_output E with
   | Some path =>
       if truthy path then
         if can_open E path then
           emit (AppendText path
                   [ "current_year=" ++ str_of_int current_year ++ String "010" "";
                     "previous_year=" ++ str_of_int previous_year ++ String "010" "" ])
         else raise OSError
       else ret tt
   | None => ret tt
   end) ;;;
  ret (if success then 0 else 1).

(* ================================================================= *)
(** ** Sample inputs *)

Definition gml_tag (name : string) : string := "{http://www.opengis.net/gml/3.2}" ++ name.
Definition ba_tag (name : string) : string := "{http://effis.jrc.ec.europa.eu/burnt_area}" ++ name.
Definition wfs_tag (name : string) : string := "{http://www.opengis.net/wfs/2.0}" ++ name.

(** A [ba:burnt_area_<year>] element with the given polygon ring and,
    when given, [ba:area_ha] and [ba:firedate] children. *)
Definition burnt_area_elem (year : Z) (id : string) (posList : string)
  (area_ha firedate : option string) : ET.Element :=
  ET.Elem (ba_tag ("burnt_area_" ++ str_of_int year)) [(gml_tag "id", id)] None
    ([ ET.Elem (ba_tag "geom") [] None
         [ ET.Elem (gml_tag "Polygon") [] None
             [ ET.Elem (gml_tag "exterior") [] None
                 [ ET.Elem (gml_tag "LinearRing") [] None
                     [ ET.Elem (gml_tag "posList") [] (Some posList) [] ] ] ] ] ]
     ++ match area_ha with
        | Some a => [ ET.Elem (ba_tag "area_ha") [] (Some a) [] ]
        | None => []
        end
     ++ match firedate with
        | Some d => [ ET.Elem (ba_tag "firedate") [] (Some d) [] ]
        | None => []
        end)%list.

Definition spec_example : ET.Element :=
  burnt_area_elem 2024 "burnt_area_2024.1" "49.1 -5.2 49.3 -5.0 49.2 -5.1"
    (Some "12.5") (Some "2024-07-15T00:00:00").


(** A closed ring near the Greenwich meridian, and the same ring walked
    the other way round. *)
Definition ring_text : string := "50 1 51 1e-15 52 1e-31 51 -2 50 1".
Definition ring_reversed_text : string := "50 1 51 -2 52 1e-31 51 1e-15 50 1".

Definition ring_elem : ET.Element :=
  burnt_area_elem 2024 "burnt_area_2024.7" ring_text (Some "3.0") None.
Definition ring_reversed_elem : ET.Element :=
  burnt_area_elem 2024 "burnt_area_2024.7" ring_reversed_text (Some "3.0") None.

(** The spec's example with an area that is not a number, and with a
    short fire date that is not a date. *)
Definition bad_area_elem : ET.Element :=
  burnt_area_elem 2024 "burnt_area_2024.2" "49.1 -5.2 49.3 -5.0 49.2 -5.1"
    (Some "n/a") (Some "2024-07-15").
Definition short_date_elem : ET.Element :=
  burnt_area_elem 2024 "burnt_area_2024.3" "49.1 -5.2 49.3 -5.0 49.2 -5.1"
    (Some "12.5") (Some "unknown").

(** The spec's example without [ba:area_ha], and with a long fire date
    that is not a date. *)
Definition no_area_elem : ET.Element :=
  burnt_area_elem 2024 "burnt_area_2024.4" "49.1 -5.2 49.3 -5.0 49.2 -5.1"
    None (Some "2024-07-15").
Definition long_bad_date_elem : ET.Element :=
  burnt_area_elem 2024 "burnt_area_2024.5" "49.1 -5.2 49.3 -5.0 49.2 -5.1"
    (Some "12.5") (Some "2024-13-45T10:00:00").

(** A run in 2024 in which the network is down: every request raises. *)
Definition offline_env : Env :=
  {| sum_algorithm := LeftToRight;
     requests_get := fun _ => Raise RequestException;
     fromstring := fun _ => Raise ParseError;
     now_year := 2024;
     utcnow_isoformat := fun _ => "2024-08-01T06:00:00.000000";
     script_dir := "/repo/scripts";
     github_output := Some "/tmp/github_output";
     can_makedirs := fun _ => true;
     can_open := fun _ => true |}.

(* ================================================================= *)
(** ** Vocabulary of the statements *)

(** The pairing the spec describes: consecutive values read as
    [(lat, lon)], each given back as [[lon, lat]]; a value left alone
    at the end is dropped. *)
Fixpoint swap_pairs (coords : list float) : list Point :=
  match coords with
  | lat :: lon :: rest => (lon, lat) :: swap_pairs rest
  | _ => []
  end.

(** The [gml:posList] of [elem] has a text, and [coords] are the floats
    its white-space separated items parse to. *)
Definition posList_floats (elem : ET.Element) (coords : list float) : Prop :=
  exists coords_elem coords_text,
    ET.find elem (ET.Descendant "gml" "posList") NAMESPACES = Some coords_elem /\
    ET.text coords_elem = Some coords_text /\
    mapM float_of_string (split (strip coords_text)) = Ok coords.

(** The texts from which the area and the fire date are read. *)
Definition area_text (elem : ET.Element) : string :=
  str_or (ET.findtext elem (ET.Descendant "ba" "area_ha") "0" NAMESPACES) "0".

Definition firedate_text (elem : ET.Element) : string :=
  str_or (ET.findtext elem (ET.Descendant "ba" "firedate") "" NAMESPACES) "".

(** The fire date the script derives from the text of [ba:firedate]. *)
Definition fire_date_of (fire_date_str : string) : option string :=
  if truthy fire_date_str then
    match parse_Ymd (slice_to 10 fire_date_str) with
    | Some d => Some (isoformat_date d)
    | None =>
        if 10 <=? len fire_date_str
        then Some (slice_to 10 fire_date_str) else None
    end
  else None.

(** The unweighted mean of the vertices, as the script computes it. *)
Definition vertex_mean (alg : SumAlgorithm) (points : list Point) : Point :=
  let n := float_of_int (Z.of_nat (List.length points)) in
  ((sum alg (map fst points) / n)%float, (sum alg (map snd points) / n)%float).

(** The feature built from the parts the extractor reads. *)
Definition feature_of (alg : SumAlgorithm) (elem : ET.Element) (year : Z)
  (coords : list float) (area_ha : float) : Feature :=
  {| fid := ET.get elem "{http://www.opengis.net/gml/3.2}id" "";
     centroid := vertex_mean alg (swap_pairs coords);
     boundaryPoints := swap_pairs coords;
     areaHectares := area_ha;
     fireDate := fire_date_of (firedate_text elem);
     seasonYear := year |}.

(** A member of a JSON object. *)
Definition json_field (key : string) (j : json) : option json :=
  match j with
  | JObj members => ET.lookup key members
  | _ => None
  end.

(** [featureCount] is the length of [features]. *)
Definition count_matches_features (j : json) : Prop :=
  exists n items,
    json_field "featureCount" j = Some (JInt n) /\
    json_field "features" j = Some (JArr items) /\
    n = Z.of_nat (List.length items).

(** A fetch that fails: the request raises a RequestException, the
    response has an error status, or its text is not well-formed XML. *)
Definition fetch_fails (E : Env) (year : Z) : Prop :=
  requests_get E (wfs_request year) = Raise RequestException \/
  exists response,
    requests_get E (wfs_request year) = Ok response /\
    ((400 <= status_code response < 600) \/
     fromstring E (response_text response) = Raise ParseError).

(** A run in which the file system does not fail and the libraries
    raise nothing but what the script catches. *)
Definition no_other_errors (E : Env) : Prop :=
  (forall path, can_makedirs E path = true) /\
  (forall path, can_open E path = true) /\
  (forall r e, requests_get E r = Raise e -> e = RequestException) /\
  (forall t e, fromstring E t = Raise e -> e = ParseError).

(** The file of the bundle of a year, as [main] names it. *)
Definition output_dir_of (E : Env) : string :=
  path_join (path_join (path_join (script_dir E) "..") "assets") "cache".

Definition bundle_path (E : Env) (year : Z) : string :=
  path_join (output_dir_of E) (bundle_filename year).

(* ================================================================= *)
(** ** More sample inputs and vocabulary *)

(** The spec's example with a hole: the polygon has a second
    [gml:posList], for its interior ring. *)
Definition with_hole_elem : ET.Element :=
  ET.Elem (ba_tag "burnt_area_2024") [(gml_tag "id", "burnt_area_2024.1")] None
    [ ET.Elem (ba_tag "geom") [] None
        [ ET.Elem (gml_tag "Polygon") [] None
            [ ET.Elem (gml_tag "exterior") [] None
                [ ET.Elem (gml_tag "LinearRing") [] None
                    [ ET.Elem (gml_tag "posList") []
                        (Some "49.1 -5.2 49.3 -5.0 49.2 -5.1") [] ] ];
              ET.Elem (gml_tag "interior") [] None
                [ ET.Elem (gml_tag "LinearRing") [] None
                    [ ET.Elem (gml_tag "posList") []
                        (Some "49.15 -5.15 49.25 -5.05 49.2 -5.1 49.15 -5.15") [] ] ] ] ];
      ET.Elem (ba_tag "area_ha") [] (Some "12.5") [];
      ET.Elem (ba_tag "firedate") [] (Some "2024-07-15T00:00:00") [] ].

(** A ring of five points in which one value is not a number. *)
Definition bad_token_elem : ET.Element :=
  burnt_area_elem 2024 "burnt_area_2024.8"
    "49.1 -5.2 49.3 west 49.2 -5.1 49.0 -5.3 49.1 -5.2" (Some "12.5") None.

(** A response document with four members: the spec's example, a
    feature whose area is not a number, a feature of 2023 and the
    ring. *)
Definition sample_root : ET.Element :=
  ET.Elem (wfs_tag "FeatureCollection") [] None
    [ ET.Elem (wfs_tag "member") [] None [ spec_example ];
      ET.Elem (wfs_tag "member") [] None [ bad_area_elem ];
      ET.Elem (wfs_tag "member") [] None
        [ burnt_area_elem 2023 "burnt_area_2023.1" "51 0 52 0 52 1 51 0"
            (Some "7") (Some "2023-04-02") ];
      ET.Elem (wfs_tag "member") [] None [ ring_elem ] ].

(** A run in which every request is answered with that document; the
    bundle of 2023 is stamped a little before that of any other year. *)
Definition answered_env (this_year : Z) : Env :=
  {| sum_algorithm := LeftToRight;
     requests_get := fun _ => Ok {| status_code := 200; response_text := "<wfs:FeatureCollection/>" |};
     fromstring := fun _ => Ok sample_root;
     now_year := this_year;
     utcnow_isoformat :=
       fun year => if year =? 2023 then "2024-08-01T06:00:01.250000"
                   else "2024-08-01T06:00:03.500000";
     script_dir := "/repo/scripts";
     github_output := Some "/tmp/github_output";
     can_makedirs := fun _ => true;
     can_open := fun _ => true |}.

(** That run in 2024: both years have features. *)
Definition online_env : Env := answered_env 2024.

(** That run in 2023, when the document has nothing for the previous
    year 2022, and in 2025, when it has nothing yet for the current
    year. *)
Definition first_season_env : Env := answered_env 2023.
Definition new_year_env : Env := answered_env 2025.

(** The spec's example with a seventh value at the end of its ring. *)
Definition odd_count_elem : ET.Element :=
  burnt_area_elem 2024 "burnt_area_2024.9" "49.1 -5.2 49.3 -5.0 49.2 -5.1 49.0"
    (Some "12.5") None.

(** The same run on a disk where no file can be opened. *)
Definition read_only_env : Env :=
  {| sum_algorithm := LeftToRight;
     requests_get := requests_get online_env;
     fromstring := fromstring online_env;
     now_year := 2024;
     utcnow_isoformat := utcnow_isoformat online_env;
     script_dir := "/repo/scripts";
     github_output := Some "/tmp/github_output";
     can_makedirs := fun _ => true;
     can_open := fun _ => false |}.

(** What one member of the response adds to the feature list. *)
Definition member_features (alg : SumAlgorithm) (year : Z) (member : ET.Element)
  : list Feature :=
  match ET.find member
          (ET.Descendant "ba" ("burnt_area_" ++ str_of_int year)) NAMESPACES with
  | Some ba_elem =>
      match parse_burnt_area_feature alg ba_elem year with
      | Some feature => [feature]
      | None => []
      end
  | None => []
  end.

(** The text of the first [gml:posList] below an element. *)
Definition posList_text (elem : ET.Element) : option string :=
  match ET.find elem (ET.Descendant "gml" "posList") NAMESPACES with
  | Some coords_elem => ET.text coords_elem
  | None => None
  end.

(** The boundary points written back as [lat1, lon1, lat2, lon2, ...]. *)
Definition lat_lon_values (points : list Point) : list float :=
  flat_map (fun p => [snd p; fst p]) points.

(** The requests and the bundle files of a trace, in order. *)
Definition requests_of (evs : list Event) : list Request :=
  flat_map (fun ev => match ev with HttpGet r => [r] | _ => [] end) evs.

Definition written_paths (evs : list Event) : list string :=
  flat_map (fun ev => match ev with WriteJson path _ => [path] | _ => [] end) evs.

(** The lines that [main] appends for the CI. *)
Definition github_lines (E : Env) : list string :=
  [ "current_year=" ++ str_of_int (now_year E) ++ String "010" "";
    "previous_year=" ++ str_of_int (now_year E - 1) ++ String "010" "" ].

(** The bundle of a year stamped with a reading of the clock. *)
Definition bundle_at (clock : string) (features : list Feature) (year : Z) : json :=
  JObj [ ("year", JInt year);
         ("region", JStr "UK");
         ("generatedAt", JStr (clock ++ "Z"));
         ("featureCount", JInt (Z.of_nat (List.length features)));
         ("features", JArr (map json_of_feature features)) ].

(** The bundle that [save_bundle] assembles. *)
Definition bundle_of (E : Env) (features : list Feature) (year : Z) : json :=
  bundle_at (utcnow_isoformat E year) features year.

(** What a year of the loop of [main] does when no file fails: its
    request, then, if the fetch brought features, its bundle, stamped
    with the reading of the clock at that moment. *)
Definition year_events_at (E : Env) (clock : string) (year : Z) : list Event :=
  HttpGet (wfs_request year)
  :: match outcome (fetch_burnt_areas E year) with
     | Ok (f :: features) =>
         [WriteJson (bundle_path E year) (bundle_at clock (f :: features) year)]
     | _ => []
     end.

Definition year_events (E : Env) (year : Z) : list Event :=
  year_events_at E (utcnow_isoformat E year) year.

(** The run writes, to the file of [year], a bundle that holds that
    year and [features]. *)
Definition writes_bundle (E : Env) (year : Z) (features : list Feature) : Prop :=
  exists content,
    In (WriteJson (bundle_path E year) content) (events (main E)) /\
    json_field "year" content = Some (JInt year) /\
    json_field "featureCount" content = Some (JInt (Z.of_nat (List.length features))) /\
    json_field "features" content = Some (JArr (map json_of_feature features)).

(** What [main] does after the loop: the lines for the CI, if asked
    for, and the exit status. *)
Definition ci_output (E : Env) : IO Z :=
  match github_output E with
  | Some path =>
      if truthy path then
        if can_open E path then ([AppendText path (github_lines E)], Ok 0)
        else ([], Raise OSError)
      else ([], Ok 0)
  | None => ([], Ok 0)
  end.

(** A date of the calendar of [datetime]. *)
Definition valid_date (y m d : Z) : Prop :=
  1 <= y <= 9999 /\ 1 <= m <= 12 /\ 1 <= d <= days_in_month y m.

(* ================================================================= *)
(** ** The built-ins on sample inputs *)

Local Open Scope list_scope.

Ltac by_evaluation := vm_compute; reflexivity.

Example split_samples :
  split (strip "  49.1 -5.2   49.3 -5.0 ") = ["49.1"; "-5.2"; "49.3"; "-5.0"] /\
  split ("49.1" ++ String "010" (String "009" "-5.2"))%string = ["49.1"; "-5.2"] /\
  split "   " = [] /\
  split "" = [].
Proof. repeat split; by_evaluation. Qed.

Example float_of_string_samples :
  parse_float "49.1" = Some 49.1%float /\
  parse_float "-5.0" = Some (-5)%float /\
  parse_float "1e-15" = Some 1e-15%float /\
  parse_float "+.5E2" = Some 50%float /\
  parse_float "1_000.25" = Some 1000.25%float /\
  parse_float "9007199254740993" = Some 9007199254740992%float /\
  parse_float "1e400" = Some infinity /\
  parse_float "-Infinity" = Some neg_infinity /\
  parse_float "-0" = Some neg_zero /\
  parse_float "0" = Some zero /\
  parse_float "n/a" = None /\
  parse_float "12,5" = None /\
  parse_float "1e" = None /\
  parse_float "." = None /\
  parse_float "" = None.
Proof. repeat split; by_evaluation. Qed.

Example strptime_samples :
  strptime_Ymd "2024-07-15" = Ok (2024, 7, 15) /\
  strptime_Ymd "2024-7-5" = Ok (2024, 7, 5) /\
  strptime_Ymd "2024-02-29" = Ok (2024, 2, 29) /\
  strptime_Ymd "2023-02-29" = Raise ValueError /\
  strptime_Ymd "2024-13-45" = Raise ValueError /\
  strptime_Ymd "2024-07-1" = Ok (2024, 7, 1) /\
  strptime_Ymd "2024/07/15" = Raise ValueError /\
  strptime_Ymd "unknown" = Raise ValueError /\
  isoformat_date (2024, 7, 5) = "2024-07-05".
Proof. repeat split; by_evaluation. Qed.

Example sum_samples :
  sum LeftToRight [0.1; 0.2; 0.3]%float = 0.6000000000000001%float /\
  sum LeftToRight [0.3; 0.2; 0.1]%float = 0.6%float /\
  sum Compensated [0.1; 0.2; 0.3]%float = 0.6%float /\
  sum Compensated [0.3; 0.2; 0.1]%float = 0.6%float /\
  sum LeftToRight [1e308; 1e308; -1e308]%float = infinity /\
  sum Compensated [1e308; 1e308; -1e308]%float = infinity /\
  truediv 254%float 5 = Ok 50.8%float /\
  truediv 254%float 0 = Raise ZeroDivisionError.
Proof. repeat split; by_evaluation. Qed.

Example index_samples :
  index [10; 20; 30] 0 = Ok 10 /\
  index [10; 20; 30] 2 = Ok 30 /\
  index [10; 20; 30] 3 = Raise IndexError /\
  index [10; 20; 30] (-1) = Ok 30 /\
  range 0 (7 - 1) 2 = [0; 2; 4] /\
  range 0 (6 - 1) 2 = [0; 2; 4] /\
  range 0 (0 - 1) 2 = [].
Proof. repeat split; by_evaluation. Qed.

(* ================================================================= *)
(** ** The pairing loop *)

Section PairInduction.
Context {A : Type} (P : list A -> Prop).
Hypothesis P_nil : P [].
Hypothesis P_one : forall x, P [x].
Hypothesis P_two : forall x y rest, P rest -> P (x :: y :: rest).

(** Induction two items at a time. *)
Lemma list_pair_ind : forall l, P l.
Proof.
  assert (both : forall l, P l /\ forall x, P (x :: l)).
  { induction l as [|y l [IH1 IH2]]; split; auto. }
  intro l. apply both.
Qed.
End PairInduction.

Lemma swap_pairs_length (coords : list float) :
  List.length (swap_pairs coords) = Nat.div2 (List.length coords).
Proof.
  induction coords as [| x | x y rest IH] using list_pair_ind; simpl; auto.
Qed.

Lemma swap_pairs_firstn (coords : list float) :
  swap_pairs (firstn (2 * Nat.div2 (List.length coords)) coords) = swap_pairs coords.
Proof.
  induction coords as [| x | x y rest IH] using list_pair_ind; auto.
  change (List.length (x :: y :: rest)) with (S (S (List.length rest))).
  change (Nat.div2 (S (S (List.length rest)))) with (S (Nat.div2 (List.length rest))).
  replace (2 * S (Nat.div2 (List.length rest)))%nat
    with (S (S (2 * Nat.div2 (List.length rest)))) by lia.
  cbn [firstn swap_pairs]. f_equal. exact IH.
Qed.

Lemma index_app_head {A} (pre : list A) (x : A) (rest : list A) (i : Z) :
  i = Z.of_nat (List.length pre) ->
  index (pre ++ x :: rest) i = Ok x.
Proof.
  intros ->. unfold index.
  rewrite length_app. simpl List.length.
  destruct (Z.ltb_spec (Z.of_nat (List.length pre)) 0) as [Hneg|_]; [lia|].
  destruct (Z.ltb_spec (Z.of_nat (List.length pre)) 0) as [Hneg|_]; [lia|].
  destruct (Z.leb_spec (Z.of_nat (List.length pre + S (List.length rest)))
              (Z.of_nat (List.length pre))) as [Hle|_]; [lia|].
  simpl. rewrite Nat2Z.id, nth_error_app2 by lia.
  now rewrite Nat.sub_diag.
Qed.

Lemma range_by_two (n : nat) :
  range 0 (Z.of_nat n - 1) 2 = map (fun i => Z.of_nat i * 2) (seq 0 (Nat.div2 n)).
Proof.
  unfold range.
  replace (Z.of_nat n - 1 - 0 + 2 - 1) with (Z.of_nat n) by lia.
  replace (Z.of_nat n / 2) with (Z.of_nat (n / 2))
    by (rewrite Nat2Z.inj_div; reflexivity).
  rewrite Nat2Z.id, <- Nat.div2_div.
  apply map_ext. intro i. lia.
Qed.

(** The loop, started after an even prefix with the pairs of that
    prefix, adds the pairs of the rest and raises nothing. *)
Lemma pair_loop_from (rest : list float) :
  forall (pre : list float) (a : nat) (acc : list Point),
    List.length pre = (2 * a)%nat ->
    pair_loop (pre ++ rest)
      (map (fun i => Z.of_nat i * 2) (seq a (Nat.div2 (List.length rest)))) acc
    = Ok (acc ++ swap_pairs rest).
Proof.
  induction rest as [| x | lat lon rest IH] using list_pair_ind;
    intros pre a acc Hpre; simpl.
  - now rewrite app_nil_r.
  - now rewrite app_nil_r.
  - rewrite (index_app_head pre lat (lon :: rest)) by lia. simpl.
    replace (pre ++ lat :: lon :: rest) with ((pre ++ [lat]) ++ lon :: rest)
      by now rewrite <- app_assoc.
    rewrite (index_app_head (pre ++ [lat]) lon rest)
      by (rewrite length_app; simpl; lia).
    simpl.
    replace ((pre ++ [lat]) ++ lon :: rest) with ((pre ++ [lat; lon]) ++ rest)
      by now rewrite <- !app_assoc.
    rewrite (IH (pre ++ [lat; lon]) (S a) (acc ++ [(lon, lat)]))
      by (rewrite length_app; simpl; lia).
    now rewrite <- app_assoc.
Qed.

(** The index loop of the script computes the pairing of the spec. *)
Lemma group_pairs_swap_pairs (coords : list float) :
  group_pairs coords = Ok (swap_pairs coords).
Proof.
  unfold group_pairs. rewrite range_by_two.
  exact (pair_loop_from coords [] 0%nat [] eq_refl).
Qed.

(* ================================================================= *)
(** ** The feature extractor *)

Lemma parse_fire_date_fire_date_of (s : string) :
  parse_fire_date s = Ok (fire_date_of s).
Proof.
  unfold parse_fire_date, fire_date_of, strptime_Ymd.
  destruct (truthy s); [|reflexivity].
  destruct (parse_Ymd (slice_to 10 s)); reflexivity.
Qed.

Lemma truediv_nonzero (x : float) (n : Z) :
  n <> 0 -> truediv x n = Ok (x / float_of_int n)%float.
Proof.
  intro Hn. unfold truediv.
  destruct (Z.eqb_spec n 0); [contradiction | reflexivity].
Qed.

Lemma truthy_false (s : string) : truthy s = false -> s = "".
Proof. destruct s; simpl; [reflexivity | discriminate]. Qed.

(** What the body of the [try] comes to once the coordinate list has
    parsed. *)
Lemma parse_feature_body_floats alg elem year coords :
  posList_floats elem coords ->
  parse_feature_body alg elem year =
    if Z.of_nat (List.length (swap_pairs coords)) <? 3 then Ok None
    else match float_of_string (area_text elem) with
         | Ok area_ha => Ok (Some (feature_of alg elem year coords area_ha))
         | Raise e => Raise e
         end.
Proof.
  intros (coords_elem & coords_text & Hfind & Htext & Hfloats).
  unfold parse_feature_body. rewrite Hfind, Htext.
  destruct (truthy coords_text) eqn:Htruthy; simpl negb; cbv iota.
  - rewrite Hfloats. cbn [bind]. rewrite group_pairs_swap_pairs. cbn [bind].
    destruct (Z.ltb_spec (Z.of_nat (List.length (swap_pairs coords))) 3) as [Hlt|Hge];
      [reflexivity|].
    unfold area_text.
    destruct (float_of_string _) as [area_ha|e]; cbn [bind]; [|reflexivity].
    rewrite parse_fire_date_fire_date_of. cbn [bind].
    rewrite !length_map.
    rewrite !truediv_nonzero by (unfold Point in *; lia). cbn [bind].
    reflexivity.
  - apply truthy_false in Htruthy. subst coords_text.
    cbv in Hfloats. injection Hfloats as <-. reflexivity.
Qed.

(** A returned feature comes from a coordinate list that parsed, has at
    least three pairs, and an area text that parsed. *)
Lemma parse_burnt_area_feature_inv alg elem year f :
  parse_burnt_area_feature alg elem year = Some f ->
  exists coords area_ha,
    posList_floats elem coords /\
    (3 <= List.length (swap_pairs coords))%nat /\
    float_of_string (area_text elem) = Ok area_ha /\
    f = feature_of alg elem year coords area_ha.
Proof.
  intro Hparse.
  assert (Hcoords : exists coords, posList_floats elem coords).
  { unfold parse_burnt_area_feature, parse_feature_body in Hparse.
    unfold posList_floats.
    destruct (ET.find elem _ NAMESPACES) as [coords_elem|] eqn:Hfind; [|discriminate].
    destruct (ET.text coords_elem) as [coords_text|] eqn:Htext; [|discriminate].
    destruct (truthy coords_text); simpl negb in Hparse; cbv iota in Hparse;
      [|discriminate].
    destruct (mapM float_of_string (split (strip coords_text))) as [coords|e] eqn:Hm;
      [|discriminate].
    exists coords, coords_elem, coords_text. repeat split; assumption. }
  destruct Hcoords as [coords Hcoords].
  unfold parse_burnt_area_feature in Hparse.
  rewrite (parse_feature_body_floats alg elem year coords Hcoords) in Hparse.
  destruct (Z.ltb_spec (Z.of_nat (List.length (swap_pairs coords))) 3) as [Hlt|Hge];
    [discriminate|].
  destruct (float_of_string (area_text elem)) as [area_ha|e]; [|discriminate].
  injection Hparse as <-.
  exists coords, area_ha. repeat split; auto. lia.
Qed.

(** Conversely such an element always yields its feature. *)
Lemma parse_burnt_area_feature_total alg elem year coords area_ha :
  posList_floats elem coords ->
  (3 <= List.length (swap_pairs coords))%nat ->
  float_of_string (area_text elem) = Ok area_ha ->
  parse_burnt_area_feature alg elem year = Some (feature_of alg elem year coords area_ha).
Proof.
  intros Hcoords Hlen Harea. unfold parse_burnt_area_feature.
  rewrite (parse_feature_body_floats alg elem year coords Hcoords), Harea.
  destruct (Z.ltb_spec (Z.of_nat (List.length (swap_pairs coords))) 3) as [Hlt|Hge];
    [lia | reflexivity].
Qed.

(** The coordinate list an element is read with is unique. *)
Lemma posList_floats_unique elem coords coords' :
  posList_floats elem coords -> posList_floats elem coords' -> coords = coords'.
Proof.
  intros (ce & txt & Hf & Ht & Hm) (ce' & txt' & Hf' & Ht' & Hm').
  congruence.
Qed.

Lemma nonempty_truthy (s : string) : s <> "" -> truthy s = true.
Proof. destruct s; simpl; [contradiction | reflexivity]. Qed.

Lemma div2_lt_iff (n m : nat) : (n / 2 < m)%nat <-> (Nat.div2 n < m)%nat.
Proof. now rewrite Nat.div2_div. Qed.

(** The area text when [ba:area_ha] is missing or has no text. *)
Lemma area_text_default elem :
  ET.find elem (ET.Descendant "ba" "area_ha") NAMESPACES = None \/
  (exists d, ET.find elem (ET.Descendant "ba" "area_ha") NAMESPACES = Some d /\
             (ET.text d = None \/ ET.text d = Some "")) ->
  area_text elem = "0".
Proof.
  unfold area_text, ET.findtext.
  intros [-> | (d & -> & [-> | ->])]; reflexivity.
Qed.

Lemma area_text_given elem d t :
  ET.find elem (ET.Descendant "ba" "area_ha") NAMESPACES = Some d ->
  ET.text d = Some t -> t <> "" ->
  area_text elem = t.
Proof.
  unfold area_text, ET.findtext, str_or. intros -> -> Ht.
  now rewrite (nonempty_truthy t Ht).
Qed.

Lemma firedate_text_default elem :
  ET.find elem (ET.Descendant "ba" "firedate") NAMESPACES = None \/
  (exists d, ET.find elem (ET.Descendant "ba" "firedate") NAMESPACES = Some d /\
             (ET.text d = None \/ ET.text d = Some "")) ->
  firedate_text elem = "".
Proof.
  unfold firedate_text, ET.findtext.
  intros [-> | (d & -> & [-> | ->])]; reflexivity.
Qed.

Lemma firedate_text_given elem d t :
  ET.find elem (ET.Descendant "ba" "firedate") NAMESPACES = Some d ->
  ET.text d = Some t ->
  firedate_text elem = t.
Proof.
  unfold firedate_text, ET.findtext, str_or. intros -> ->.
  now destruct t.
Qed.

(* ================================================================= *)
(** ** Coordinates *)

(** Reads the [gml:posList] of a sample element by evaluation. *)
Ltac read_posList := do 2 eexists; repeat split; vm_compute; reflexivity.

(** C1. When the text of [gml:posList] parses, item by item, to the
    floats [lat1, lon1, lat2, lon2, ...], the feature that
    [parse_burnt_area_feature] returns has the boundary points
    [[lon1, lat1], [lon2, lat2], ...]: the loop of the script pairs
    consecutive values as (lat, lon) and gives each pair back swapped.
    The instance for the text ["49.1 -5.2 49.3 -5.0 49.2 -5.1"] is
    [C1_spec_example]. *)
Theorem C1_boundary_points_lon_lat alg elem year coords f :
  posList_floats elem coords ->
  parse_burnt_area_feature alg elem year = Some f ->
  group_pairs coords = Ok (boundaryPoints f) /\
  boundaryPoints f = swap_pairs coords.
Proof.
  intros Hcoords Hparse.
  destruct (parse_burnt_area_feature_inv alg elem year f Hparse)
    as (coords' & area_ha & Hcoords' & _ & _ & ->).
  rewrite (posList_floats_unique elem coords coords' Hcoords Hcoords').
  split; [apply group_pairs_swap_pairs | reflexivity].
Qed.

(** The example of the spec. *)
Lemma C1_spec_example :
  posList_floats spec_example
    [49.1; -5.2; 49.3; -5.0; 49.2; -5.1]%float /\
  exists f,
    parse_burnt_area_feature LeftToRight spec_example 2024 = Some f /\
    boundaryPoints f =
      [ ((-5.2)%float, 49.1%float); ((-5.0)%float, 49.3%float);
        ((-5.1)%float, 49.2%float) ].
Proof.
  assert (Hcoords : posList_floats spec_example
                      [49.1; -5.2; 49.3; -5.0; 49.2; -5.1]%float)
    by read_posList.
  split; [exact Hcoords|].
  destruct (parse_burnt_area_feature LeftToRight spec_example 2024) as [f|] eqn:Hparse;
    [|vm_compute in Hparse; discriminate].
  exists f. split; [reflexivity|].
  rewrite (proj2 (C1_boundary_points_lon_lat _ _ _ _ _ Hcoords Hparse)).
  reflexivity.
Defined.

(** C10. A coordinate list of [2k+1] floats gives exactly the [k] pairs
    of its first [2k] values: the value left over at the end is dropped
    and no index is out of range; a list of [2k] floats gives its [k]
    pairs.  These are the boundary points of the feature when one is
    returned.  One is returned for an element whose [gml:posList] reads
    as such a list with [3 <= k], if its area text is a number; with
    [k < 3] the element is dropped. *)
Theorem C10_odd_count_drops_last (coords : list float) (k : nat) :
  List.length coords = (2 * k + 1)%nat \/ List.length coords = (2 * k)%nat ->
  group_pairs coords = Ok (swap_pairs (firstn (2 * k) coords)) /\
  List.length (swap_pairs (firstn (2 * k) coords)) = k /\
  (forall alg elem year f,
      posList_floats elem coords ->
      parse_burnt_area_feature alg elem year = Some f ->
      boundaryPoints f = swap_pairs (firstn (2 * k) coords) /\
      List.length (boundaryPoints f) = k) /\
  (forall alg elem year area_ha,
      posList_floats elem coords ->
      (3 <= k)%nat ->
      float_of_string (area_text elem) = Ok area_ha ->
      exists f,
        parse_burnt_area_feature alg elem year = Some f /\
        boundaryPoints f = swap_pairs (firstn (2 * k) coords) /\
        List.length (boundaryPoints f) = k) /\
  (forall alg elem year,
      posList_floats elem coords ->
      (k < 3)%nat ->
      parse_burnt_area_feature alg elem year = None).
Proof.
  intro Hlen.
  assert (Hk : Nat.div2 (List.length coords) = k).
  { destruct Hlen as [-> | ->].
    - replace (2 * k + 1)%nat with (S (2 * k)) by lia. apply Nat.div2_succ_double.
    - apply Nat.div2_double. }
  assert (Hfirst : swap_pairs (firstn (2 * k) coords) = swap_pairs coords).
  { rewrite <- Hk. apply swap_pairs_firstn. }
  rewrite Hfirst.
  assert (Hcount : List.length (swap_pairs coords) = k)
    by now rewrite swap_pairs_length.
  split; [apply group_pairs_swap_pairs|].
  split; [exact Hcount|].
  split; [|split].
  - intros alg elem year f Hcoords Hparse.
    destruct (parse_burnt_area_feature_inv alg elem year f Hparse)
      as (coords' & area_ha & Hcoords' & _ & _ & ->).
    rewrite (posList_floats_unique elem coords coords' Hcoords Hcoords') in *.
    simpl. auto.
  - intros alg elem year area_ha Hcoords Hk3 Harea.
    exists (feature_of alg elem year coords area_ha).
    split; [|simpl; auto].
    apply parse_burnt_area_feature_total; auto. now rewrite Hcount.
  - intros alg elem year Hcoords Hk3.
    unfold parse_burnt_area_feature.
    rewrite (parse_feature_body_floats alg elem year coords Hcoords), Hcount.
    destruct (Z.ltb_spec (Z.of_nat k) 3); [reflexivity | lia].
Qed.

(** The ring of the spec's example with a seventh value at its end: the
    feature is returned with the three points of the example, and the
    seventh value is dropped. *)
Lemma C10_seven_values :
  posList_floats odd_count_elem [49.1; -5.2; 49.3; -5.0; 49.2; -5.1; 49.0]%float /\
  exists f,
    parse_burnt_area_feature LeftToRight odd_count_elem 2024 = Some f /\
    boundaryPoints f =
      [ ((-5.2)%float, 49.1%float); ((-5.0)%float, 49.3%float);
        ((-5.1)%float, 49.2%float) ] /\
    List.length (boundaryPoints f) = 3%nat.
Proof.
  assert (Hcoords : posList_floats odd_count_elem
                      [49.1; -5.2; 49.3; -5.0; 49.2; -5.1; 49.0]%float)
    by read_posList.
  split; [exact Hcoords|].
  destruct (proj1 (proj2 (proj2 (proj2
              (C10_odd_count_drops_last [49.1; -5.2; 49.3; -5.0; 49.2; -5.1; 49.0]%float 3
                 (or_introl eq_refl)))))
              LeftToRight odd_count_elem 2024 12.5%float Hcoords (le_n 3) eq_refl)
    as (f & Hparse & Hpoints & Hlen).
  exists f. split; [exact Hparse|]. split; [exact Hpoints | exact Hlen].
Defined.

(** Every feature that the loop over the members adds satisfies what
    every returned feature satisfies. *)
Lemma members_loop_Forall (P : Feature -> Prop) alg year :
  (forall elem f, parse_burnt_area_feature alg elem year = Some f -> P f) ->
  forall members features,
    Forall P features -> Forall P (members_loop alg year members features).
Proof.
  intros HP members.
  induction members as [|member members IH]; intros features Hfeatures; simpl.
  - exact Hfeatures.
  - destruct (ET.find member _ NAMESPACES) as [ba_elem|]; [|now apply IH].
    destruct (parse_burnt_area_feature alg ba_elem year) as [feature|] eqn:Hparse;
      [|now apply IH].
    apply IH. apply Forall_app. split; [exact Hfeatures|].
    constructor; [|constructor]. exact (HP ba_elem feature Hparse).
Qed.

(** C6. An element without [gml:posList], with one that has no text or
    an empty text, or with one whose floats make fewer than three pairs,
    yields no feature; so every feature that is returned, and every
    feature in the list of [parse_gml_response], has at least three
    boundary points. *)
Theorem C6_fewer_than_three_pairs_dropped :
  (forall alg elem year,
      ET.find elem (ET.Descendant "gml" "posList") NAMESPACES = None ->
      parse_burnt_area_feature alg elem year = None) /\
  (forall alg elem year coords_elem,
      ET.find elem (ET.Descendant "gml" "posList") NAMESPACES = Some coords_elem ->
      ET.text coords_elem = None \/ ET.text coords_elem = Some "" ->
      parse_burnt_area_feature alg elem year = None) /\
  (forall alg elem year coords,
      posList_floats elem coords ->
      (List.length coords / 2 < 3)%nat ->
      parse_burnt_area_feature alg elem year = None) /\
  (forall alg elem year f,
      parse_burnt_area_feature alg elem year = Some f ->
      (3 <= List.length (boundaryPoints f))%nat) /\
  (forall E gml_text year features,
      parse_gml_response E gml_text year = Ok features ->
      Forall (fun f => (3 <= List.length (boundaryPoints f))%nat) features).
Proof.
  assert (Hthree : forall alg elem year f,
             parse_burnt_area_feature alg elem year = Some f ->
             (3 <= List.length (boundaryPoints f))%nat).
  { intros alg elem year f Hparse.
    destruct (parse_burnt_area_feature_inv alg elem year f Hparse)
      as (coords & area_ha & _ & Hlen & _ & ->).
    exact Hlen. }
  repeat split.
  - intros alg elem year Hfind.
    unfold parse_burnt_area_feature, parse_feature_body. now rewrite Hfind.
  - intros alg elem year coords_elem Hfind Htext.
    unfold parse_burnt_area_feature, parse_feature_body. rewrite Hfind.
    destruct Htext as [-> | ->]; reflexivity.
  - intros alg elem year coords Hcoords Hfew.
    unfold parse_burnt_area_feature.
    rewrite (parse_feature_body_floats alg elem year coords Hcoords).
    rewrite swap_pairs_length. apply div2_lt_iff in Hfew.
    destruct (Z.ltb_spec (Z.of_nat (Nat.div2 (List.length coords))) 3); [reflexivity | lia].
  - exact Hthree.
  - intros E gml_text year features Hresp.
    unfold parse_gml_response in Hresp.
    destruct (fromstring E gml_text) as [root|e].
    + injection Hresp as <-.
      apply members_loop_Forall; [|constructor].
      intros elem f. apply Hthree.
    + destruct e; try discriminate. injection Hresp as <-. constructor.
Qed.

(** The spec's example has three pairs and passes; cut to two pairs it
    is dropped. *)
Lemma C6_two_pairs_dropped :
  parse_burnt_area_feature LeftToRight
    (burnt_area_elem 2024 "burnt_area_2024.6" "49.1 -5.2 49.3 -5.0" None None) 2024
  = None.
Proof.
  apply (proj1 (proj2 (proj2 C6_fewer_than_three_pairs_dropped))
           LeftToRight _ 2024 [49.1; -5.2; 49.3; -5.0]%float).
  - read_posList.
  - simpl. lia.
Defined.

(* ================================================================= *)
(** ** Centroid *)

(** C2, as the code has it.  The centroid of a returned feature with
    boundary points [p1..pn] ([3 <= n]) is [[sum(lons) / n,
    sum(lats) / n]]: the unweighted mean over the vertices, computed in
    binary64 with the interpreter's [sum] over the points in boundary
    order and one division by [n]. *)
Theorem C2_centroid_is_vertex_mean alg elem year f :
  parse_burnt_area_feature alg elem year = Some f ->
  let n := List.length (boundaryPoints f) in
  (3 <= n)%nat /\
  centroid f =
    ((sum alg (map fst (boundaryPoints f)) / float_of_int (Z.of_nat n))%float,
     (sum alg (map snd (boundaryPoints f)) / float_of_int (Z.of_nat n))%float).
Proof.
  intro Hparse.
  destruct (parse_burnt_area_feature_inv alg elem year f Hparse)
    as (coords & area_ha & _ & Hlen & _ & ->).
  split; [exact Hlen | reflexivity].
Qed.

(** The centroid of the spec's example, summed from left to right. *)
Lemma C2_spec_example_centroid :
  exists f,
    parse_burnt_area_feature LeftToRight spec_example 2024 = Some f /\
    List.length (boundaryPoints f) = 3%nat /\
    centroid f =
      (((zero + -5.2 + -5.0 + -5.1) / 3)%float, ((zero + 49.1 + 49.3 + 49.2) / 3)%float).
Proof.
  set (f := feature_of LeftToRight spec_example 2024
              [49.1; -5.2; 49.3; -5.0; 49.2; -5.1]%float 12.5%float).
  assert (Hparse : parse_burnt_area_feature LeftToRight spec_example 2024 = Some f)
    by (vm_compute; reflexivity).
  exists f. split; [exact Hparse|]. split; [reflexivity|].
  destruct (C2_centroid_is_vertex_mean _ _ _ _ Hparse) as [_ Hmean].
  rewrite Hmean. vm_compute. reflexivity.
Defined.

(** Two floats that the comparison tells apart are different. *)
Lemma float_neq (x y : float) :
  (x =? x)%float = true -> (x =? y)%float = false -> x <> y.
Proof. intros Hxx Hxy Heq. rewrite <- Heq in Hxy. congruence. Qed.

(** The reversed ring has the same vertices and another centroid. *)
Lemma reversed_ring_moves_centroid alg :
  let f := feature_of alg ring_elem 2024
             [50; 1; 51; 1e-15; 52; 1e-31; 51; -2; 50; 1]%float 3%float in
  let g := feature_of alg ring_reversed_elem 2024
             [50; 1; 51; -2; 52; 1e-31; 51; 1e-15; 50; 1]%float 3%float in
  parse_burnt_area_feature alg ring_elem 2024 = Some f /\
  parse_burnt_area_feature alg ring_reversed_elem 2024 = Some g /\
  boundaryPoints g = rev (boundaryPoints f) /\
  Permutation (boundaryPoints f) (boundaryPoints g) /\
  centroid f <> centroid g.
Proof.
  intros f g.
  assert (Hrev : boundaryPoints g = rev (boundaryPoints f)) by reflexivity.
  split; [destruct alg; vm_compute; reflexivity|].
  split; [destruct alg; vm_compute; reflexivity|].
  split; [exact Hrev|].
  split; [rewrite Hrev; apply Permutation_rev|].
  intro Heq. apply (f_equal fst) in Heq. revert Heq.
  destruct alg; apply float_neq; vm_compute; reflexivity.
Qed.

(** C2 as stated fails: walking a closed ring the other way round keeps
    the vertices and moves the centroid, under either summation of the
    interpreter. *)
Lemma C2_reversed_ring_moves_centroid :
  (exists f g,
      parse_burnt_area_feature LeftToRight ring_elem 2024 = Some f /\
      parse_burnt_area_feature LeftToRight ring_reversed_elem 2024 = Some g /\
      boundaryPoints g = rev (boundaryPoints f) /\
      Permutation (boundaryPoints f) (boundaryPoints g) /\
      centroid f = (2.220446049250313e-16, 50.8)%float /\
      centroid g = (1.9984014443252818e-16, 50.8)%float /\
      centroid f <> centroid g) /\
  (exists f g,
      parse_burnt_area_feature Compensated ring_elem 2024 = Some f /\
      parse_burnt_area_feature Compensated ring_reversed_elem 2024 = Some g /\
      boundaryPoints g = rev (boundaryPoints f) /\
      Permutation (boundaryPoints f) (boundaryPoints g) /\
      centroid f = (2.0000000000000002e-16, 50.8)%float /\
      centroid g = (2.0000000000000005e-16, 50.8)%float /\
      centroid f <> centroid g).
Proof.
  split.
  - destruct (reversed_ring_moves_centroid LeftToRight) as (Hf & Hg & Hrev & Hperm & Hne).
    do 2 eexists. repeat split; try eassumption; vm_compute; reflexivity.
  - destruct (reversed_ring_moves_centroid Compensated) as (Hf & Hg & Hrev & Hperm & Hne).
    do 2 eexists. repeat split; try eassumption; vm_compute; reflexivity.
Qed.

(** Why the order matters.  A left-to-right sum is the same for every
    order of its items when the addition is associative and
    commutative; the addition of binary64 is not associative. *)
Section ExactSum.
Context {A : Type} (add : A -> A -> A).
Hypothesis add_comm : forall a b, add a b = add b a.
Hypothesis add_assoc : forall a b c, add a (add b c) = add (add a b) c.

Lemma fold_left_add_Permutation (xs ys : list A) :
  Permutation xs ys -> forall z, fold_left add xs z = fold_left add ys z.
Proof.
  induction 1 as [| x xs ys _ IH | x y xs | xs ys zs _ IH1 _ IH2]; intro z; simpl.
  - reflexivity.
  - apply IH.
  - f_equal. rewrite <- !add_assoc. f_equal. apply add_comm.
  - now rewrite IH1.
Qed.
End ExactSum.

Example float_add_not_associative :
  ((0.1 + 0.2) + 0.3)%float <> (0.1 + (0.2 + 0.3))%float.
Proof. apply float_neq; by_evaluation. Qed.

(* ================================================================= *)
(** ** Attributes *)

(** C4, as the code has it.  For an element whose geometry is valid
    (its coordinate list parses and has at least three pairs): when
    [ba:area_ha] is absent, or has no text or an empty text, the feature
    is returned with [areaHectares] 0.0; when its text is not empty and
    is not a number, [float] raises, the outer [except] catches it and
    no feature is returned; when its text is a number, the feature is
    returned with that area. *)
Theorem C4_area_default_and_unparseable alg elem year coords :
  posList_floats elem coords ->
  (3 <= List.length coords / 2)%nat ->
  (ET.find elem (ET.Descendant "ba" "area_ha") NAMESPACES = None \/
   (exists d, ET.find elem (ET.Descendant "ba" "area_ha") NAMESPACES = Some d /\
              (ET.text d = None \/ ET.text d = Some "")) ->
   exists f, parse_burnt_area_feature alg elem year = Some f /\
             areaHectares f = zero) /\
  (forall d t,
      ET.find elem (ET.Descendant "ba" "area_ha") NAMESPACES = Some d ->
      ET.text d = Some t -> t <> "" -> parse_float t = None ->
      parse_burnt_area_feature alg elem year = None) /\
  (forall d t area_ha,
      ET.find elem (ET.Descendant "ba" "area_ha") NAMESPACES = Some d ->
      ET.text d = Some t -> parse_float t = Some area_ha ->
      exists f, parse_burnt_area_feature alg elem year = Some f /\
                areaHectares f = area_ha).
Proof.
  intros Hcoords Hpairs.
  assert (Hlen : (3 <= List.length (swap_pairs coords))%nat)
    by (rewrite swap_pairs_length, Nat.div2_div; exact Hpairs).
  repeat split.
  - intro Habsent.
    exists (feature_of alg elem year coords zero). split; [|reflexivity].
    apply parse_burnt_area_feature_total; auto.
    now rewrite (area_text_default elem Habsent).
  - intros d t Hfind Htext Hne Hbad.
    unfold parse_burnt_area_feature.
    rewrite (parse_feature_body_floats alg elem year coords Hcoords).
    rewrite (area_text_given elem d t Hfind Htext Hne).
    unfold float_of_string. rewrite Hbad.
    now destruct (Z.of_nat (List.length (swap_pairs coords)) <? 3).
  - intros d t area_ha Hfind Htext Hnum.
    assert (Hne : t <> "") by (intros ->; discriminate).
    exists (feature_of alg elem year coords area_ha). split; [|reflexivity].
    apply parse_burnt_area_feature_total; auto.
    rewrite (area_text_given elem d t Hfind Htext Hne).
    unfold float_of_string. now rewrite Hnum.
Qed.

(** Without [ba:area_ha] the area is 0.0. *)
Lemma C4_no_area_gives_zero :
  exists f,
    parse_burnt_area_feature LeftToRight no_area_elem 2024 = Some f /\
    areaHectares f = zero.
Proof.
  assert (Hcoords : posList_floats no_area_elem
                      [49.1; -5.2; 49.3; -5.0; 49.2; -5.1]%float).
  { read_posList. }
  assert (Hpairs : (3 <= List.length [49.1; -5.2; 49.3; -5.0; 49.2; -5.1]%float / 2)%nat)
    by (simpl; lia).
  apply (proj1 (C4_area_default_and_unparseable
                  LeftToRight no_area_elem 2024 _ Hcoords Hpairs)).
  left. vm_compute. reflexivity.
Defined.

(** C4 as stated fails: with the valid ring of the spec's example and
    the area text ["n/a"], which is not a number, no feature is
    returned, under either summation. *)
Lemma C4_unparseable_area_drops_feature :
  posList_floats bad_area_elem [49.1; -5.2; 49.3; -5.0; 49.2; -5.1]%float /\
  ET.findtext bad_area_elem (ET.Descendant "ba" "area_ha") "0" NAMESPACES = "n/a" /\
  float_of_string "n/a" = Raise ValueError /\
  parse_burnt_area_feature LeftToRight bad_area_elem 2024 = None /\
  parse_burnt_area_feature Compensated bad_area_elem 2024 = None.
Proof.
  split; [read_posList|].
  repeat split; vm_compute; reflexivity.
Qed.

(** C5, as the code has it.  The fire date is read without raising.
    For an element that yields a feature apart from the fire date (valid
    geometry, an area that parses) the feature is returned whatever
    [ba:firedate] holds, with [fireDate]: null when [ba:firedate] is
    absent or has no text or an empty text; the date in [YYYY-MM-DD]
    form when the first 10 characters parse as a date; and, when
    they do not, the first 10 characters if the text has at least 10
    characters and null if it is shorter. *)
Theorem C5_fire_date_fallback alg elem year coords area_ha :
  posList_floats elem coords ->
  (3 <= List.length coords / 2)%nat ->
  float_of_string (area_text elem) = Ok area_ha ->
  (forall s, exists v, parse_fire_date s = Ok v) /\
  exists f,
    parse_burnt_area_feature alg elem year = Some f /\
    (ET.find elem (ET.Descendant "ba" "firedate") NAMESPACES = None ->
     fireDate f = None) /\
    (forall d,
        ET.find elem (ET.Descendant "ba" "firedate") NAMESPACES = Some d ->
        ET.text d = None \/ ET.text d = Some "" ->
        fireDate f = None) /\
    (forall d t date,
        ET.find elem (ET.Descendant "ba" "firedate") NAMESPACES = Some d ->
        ET.text d = Some t ->
        strptime_Ymd (slice_to 10 t) = Ok date ->
        fireDate f = Some (isoformat_date date)) /\
    (forall d t,
        ET.find elem (ET.Descendant "ba" "firedate") NAMESPACES = Some d ->
        ET.text d = Some t -> t <> "" ->
        strptime_Ymd (slice_to 10 t) = Raise ValueError ->
        fireDate f = if 10 <=? len t then Some (slice_to 10 t) else None).
Proof.
  intros Hcoords Hpairs Harea.
  assert (Hlen : (3 <= List.length (swap_pairs coords))%nat)
    by (rewrite swap_pairs_length, Nat.div2_div; exact Hpairs).
  split.
  { intro s. exists (fire_date_of s). apply parse_fire_date_fire_date_of. }
  exists (feature_of alg elem year coords area_ha).
  split; [now apply parse_burnt_area_feature_total|].
  cbn [fireDate feature_of].
  repeat split.
  - intro Hfind. now rewrite (firedate_text_default elem (or_introl Hfind)).
  - intros d Hfind Htext.
    rewrite (firedate_text_default elem); [reflexivity|].
    right. exists d. auto.
  - intros d t date Hfind Htext Hdate.
    rewrite (firedate_text_given elem d t Hfind Htext).
    unfold strptime_Ymd in Hdate. unfold fire_date_of.
    destruct (parse_Ymd (slice_to 10 t)) as [date'|] eqn:Hparse; [|discriminate].
    injection Hdate as ->.
    destruct t; [discriminate Hparse | reflexivity].
  - intros d t Hfind Htext Hne Hfail.
    rewrite (firedate_text_given elem d t Hfind Htext).
    unfold strptime_Ymd in Hfail. unfold fire_date_of.
    rewrite (nonempty_truthy t Hne).
    destruct (parse_Ymd (slice_to 10 t)); [discriminate | reflexivity].
Qed.

(** A long text that is not a date is cut to its first 10 characters. *)
Lemma C5_long_bad_date_kept :
  exists f,
    parse_burnt_area_feature LeftToRight long_bad_date_elem 2024 = Some f /\
    fireDate f = Some "2024-13-45".
Proof.
  assert (Hcoords : posList_floats long_bad_date_elem
                      [49.1; -5.2; 49.3; -5.0; 49.2; -5.1]%float).
  { read_posList. }
  assert (Hpairs : (3 <= List.length [49.1; -5.2; 49.3; -5.0; 49.2; -5.1]%float / 2)%nat)
    by (simpl; lia).
  assert (Harea : float_of_string (area_text long_bad_date_elem) = Ok 12.5%float)
    by (vm_compute; reflexivity).
  destruct (C5_fire_date_fallback LeftToRight long_bad_date_elem 2024 _ _
              Hcoords Hpairs Harea) as (_ & f & Hparse & _ & _ & _ & Hfallback).
  exists f. split; [exact Hparse|].
  rewrite (Hfallback
             (ET.Elem (ba_tag "firedate") [] (Some "2024-13-45T10:00:00") [])
             "2024-13-45T10:00:00").
  - reflexivity.
  - vm_compute. reflexivity.
  - reflexivity.
  - discriminate.
  - vm_compute. reflexivity.
Defined.

(** C5 as stated fails: the fire date ["unknown"] does not parse as a
    date and is shorter than 10 characters; the claim gives the feature
    the raw text, the code gives it null. *)
Lemma C5_short_bad_date_is_null :
  ET.findtext short_date_elem (ET.Descendant "ba" "firedate") "" NAMESPACES = "unknown" /\
  strptime_Ymd (slice_to 10 "unknown") = Raise ValueError /\
  slice_to 10 "unknown" = "unknown" /\
  exists f,
    parse_burnt_area_feature LeftToRight short_date_elem 2024 = Some f /\
    fireDate f = None /\
    fireDate f <> Some (slice_to 10 "unknown").
Proof.
  repeat split; try (vm_compute; reflexivity).
  exists (feature_of LeftToRight short_date_elem 2024
            [49.1; -5.2; 49.3; -5.0; 49.2; -5.1]%float 12.5%float).
  repeat split; try (vm_compute; reflexivity).
  vm_compute. discriminate.
Qed.

(* ================================================================= *)
(** ** The bundle *)

(** C3. The bundle that [save_bundle] writes, for any feature list and
    year, has a [featureCount] equal to the length of its [features]
    array; it is written whenever the file can be opened. *)
Theorem C3_feature_count_is_length E features year output_dir :
  (forall path content,
      In (WriteJson path content) (events (save_bundle E features year output_dir)) ->
      count_matches_features content /\
      json_field "featureCount" content = Some (JInt (Z.of_nat (List.length features)))) /\
  (can_open E (path_join output_dir (bundle_filename year)) = true ->
   exists content,
     save_bundle E features year output_dir
     = ([WriteJson (path_join output_dir (bundle_filename year)) content],
        Ok (path_join output_dir (bundle_filename year))) /\
     count_matches_features content).
Proof.
  unfold save_bundle.
  destruct (can_open E (path_join output_dir (bundle_filename year))); simpl; split.
  - intros path content [Hev | []]. injection Hev as _ <-.
    split; [|reflexivity].
    exists (Z.of_nat (List.length features)), (map json_of_feature features).
    repeat split. now rewrite length_map.
  - intros _. eexists. split; [reflexivity|].
    exists (Z.of_nat (List.length features)), (map json_of_feature features).
    repeat split. now rewrite length_map.
  - intros path content [].
  - discriminate.
Qed.

(* ================================================================= *)
(** ** Fetching *)

(** A fetch issues its request and nothing else. *)
Lemma fetch_burnt_areas_events E year :
  fetch_burnt_areas E year
  = ([HttpGet (wfs_request year)], outcome (fetch_burnt_areas E year)).
Proof.
  unfold fetch_burnt_areas, outcome.
  destruct (requests_get E (wfs_request year)) as [response|e]; cbn [bind].
  - destruct (raise_for_status response) as [[]|e]; cbn [bind].
    + destruct (parse_gml_response E (response_text response) year); reflexivity.
    + destruct e; reflexivity.
  - destruct e; reflexivity.
Qed.

Lemma parse_gml_response_malformed E gml_text year :
  fromstring E gml_text = Raise ParseError ->
  parse_gml_response E gml_text year = Ok [].
Proof. unfold parse_gml_response. now intros ->. Qed.

Lemma fetch_fails_empty E year :
  fetch_fails E year ->
  fetch_burnt_areas E year = ([HttpGet (wfs_request year)], Ok []).
Proof.
  intros [Hraise | (response & Hresp & [Hstatus | Hxml])];
    unfold fetch_burnt_areas; rewrite ?Hraise, ?Hresp; cbn [bind].
  - reflexivity.
  - unfold raise_for_status.
    destruct (Z.leb_spec 400 (status_code response)); [|lia].
    destruct (Z.ltb_spec (status_code response) 600); [|lia].
    reflexivity.
  - destruct (raise_for_status response) as [[]|e] eqn:Hstatus; cbn [bind].
    + now rewrite (parse_gml_response_malformed E _ year Hxml).
    + unfold raise_for_status in Hstatus.
      destruct (_ && _) in Hstatus; [|discriminate].
      injection Hstatus as <-. reflexivity.
Qed.

(** With no other errors a fetch returns. *)
Lemma fetch_returns E year :
  no_other_errors E ->
  exists features, outcome (fetch_burnt_areas E year) = Ok features.
Proof.
  intros (_ & _ & Hget & Hxml).
  unfold fetch_burnt_areas, outcome.
  destruct (requests_get E (wfs_request year)) as [response|e] eqn:Hresp; cbn [bind].
  - destruct (raise_for_status response) as [[]|e] eqn:Hstatus; cbn [bind].
    + unfold parse_gml_response.
      destruct (fromstring E (response_text response)) as [root|e] eqn:Hroot.
      * eexists. reflexivity.
      * rewrite (Hxml _ _ Hroot). eexists. reflexivity.
    + unfold raise_for_status in Hstatus.
      destruct (_ && _) in Hstatus; [|discriminate].
      injection Hstatus as <-. eexists. reflexivity.
  - rewrite (Hget _ _ Hresp). eexists. reflexivity.
Qed.

(* ================================================================= *)
(** ** The loop of main *)

Lemma save_bundle_events E features year output_dir :
  events (save_bundle E features year output_dir) = []
  \/ exists content,
       events (save_bundle E features year output_dir)
       = [WriteJson (path_join output_dir (bundle_filename year)) content].
Proof.
  unfold save_bundle.
  destruct (can_open E _); simpl; [right; eexists; reflexivity | left; reflexivity].
Qed.

(** One turn of the loop: the request, the bundle if there are
    features, then the other years. *)
Lemma year_loop_cons E output_dir year years :
  year_loop E output_dir (year :: years)
  = match outcome (fetch_burnt_areas E year) with
    | Ok [] =>
        let '(evs, r) := year_loop E output_dir years in
        (HttpGet (wfs_request year) :: evs, r)
    | Ok features =>
        match save_bundle E features year output_dir with
        | (evs1, Ok _) =>
            let '(evs, r) := year_loop E output_dir years in
            (HttpGet (wfs_request year) :: evs1 ++ evs, r)
        | (evs1, Raise e) => (HttpGet (wfs_request year) :: evs1, Raise e)
        end
    | Raise e => ([HttpGet (wfs_request year)], Raise e)
    end.
Proof.
  cbn [year_loop].
  set (res := outcome (fetch_burnt_areas E year)).
  rewrite fetch_burnt_areas_events. fold res. clearbody res.
  destruct res as [[|f features]|e]; unfold ret; cbn [io_bind app].
  - destruct (year_loop E output_dir years) as [evs r]. reflexivity.
  - destruct (save_bundle E (f :: features) year output_dir) as [evs1 [path|e]];
      cbn [io_bind app].
    + destruct (year_loop E output_dir years) as [evs r]. cbn [app].
      now rewrite app_nil_r.
    + reflexivity.
  - reflexivity.
Qed.

(** The request of the first year is always issued. *)
Lemma year_loop_first_request E output_dir year years :
  In (HttpGet (wfs_request year)) (events (year_loop E output_dir (year :: years))).
Proof.
  rewrite year_loop_cons.
  destruct (outcome (fetch_burnt_areas E year)) as [[|f features]|e].
  - destruct (year_loop E output_dir years). now left.
  - destruct (save_bundle E (f :: features) year output_dir) as [evs1 [path|e]].
    + destruct (year_loop E output_dir years). now left.
    + now left.
  - now left.
Qed.

(** After a year without features the loop goes on with the others. *)
Lemma year_loop_empty_year E output_dir year years :
  outcome (fetch_burnt_areas E year) = Ok [] ->
  events (year_loop E output_dir (year :: years))
  = HttpGet (wfs_request year) :: events (year_loop E output_dir years).
Proof.
  intro Hempty. rewrite year_loop_cons, Hempty.
  now destruct (year_loop E output_dir years).
Qed.

(** A bundle is written only for a year of the loop whose fetch
    returned features. *)
Lemma year_loop_writes E output_dir years path content :
  In (WriteJson path content) (events (year_loop E output_dir years)) ->
  exists year f features,
    In year years /\
    path = path_join output_dir (bundle_filename year) /\
    outcome (fetch_burnt_areas E year) = Ok (f :: features).
Proof.
  induction years as [|year years IH]; [intros []|].
  rewrite year_loop_cons.
  assert (Hrest : In (WriteJson path content) (events (year_loop E output_dir years)) ->
                  exists year0 f features,
                    In year0 (year :: years) /\
                    path = path_join output_dir (bundle_filename year0) /\
                    outcome (fetch_burnt_areas E year0) = Ok (f :: features)).
  { intro Hin. destruct (IH Hin) as (y & f & fs & Hy & Hp & Hf).
    exists y, f, fs. repeat split; auto. now right. }
  destruct (outcome (fetch_burnt_areas E year)) as [[|f features]|e] eqn:Hfetch.
  - destruct (year_loop E output_dir years) as [evs r]. cbn.
    intros [Hev | Hin]; [discriminate | auto].
  - assert (Hsave : forall evs1,
               events (save_bundle E (f :: features) year output_dir) = evs1 ->
               In (WriteJson path content) evs1 ->
               exists year0 f0 features0,
                 In year0 (year :: years) /\
                 path = path_join output_dir (bundle_filename year0) /\
                 outcome (fetch_burnt_areas E year0) = Ok (f0 :: features0)).
    { intros evs1 <- Hin.
      destruct (save_bundle_events E (f :: features) year output_dir)
        as [Hnone | (content' & Hone)].
      - rewrite Hnone in Hin. destruct Hin.
      - rewrite Hone in Hin. destruct Hin as [Hev | []]. injection Hev as <- _.
        exists year, f, features. repeat split; auto. now left. }
    destruct (save_bundle E (f :: features) year output_dir) as [evs1 [p|e]] eqn:Hsv.
    + destruct (year_loop E output_dir years) as [evs r]. cbn.
      intros [Hev | Hin]; [discriminate|].
      apply in_app_or in Hin. destruct Hin as [Hin | Hin]; [|auto].
      apply (Hsave evs1); auto.
    + cbn. intros [Hev | Hin]; [discriminate|].
      apply (Hsave evs1); auto.
  - cbn. intros [Hev | []]. discriminate.
Qed.

(** A year that comes first with features has its bundle written, if
    its file opens. *)
Lemma year_loop_first_bundle E year years features :
  outcome (fetch_burnt_areas E year) = Ok features ->
  features <> [] ->
  can_open E (bundle_path E year) = true ->
  In (WriteJson (bundle_path E year) (bundle_of E features year))
     (events (year_loop E (output_dir_of E) (year :: years))).
Proof.
  intros Hfetch Hsome Hopen. rewrite year_loop_cons, Hfetch.
  destruct features as [|f features]; [contradiction|].
  unfold save_bundle. fold (bundle_path E year). rewrite Hopen.
  unfold emit, ret. cbn [io_bind app].
  destruct (year_loop E (output_dir_of E) years) as [evs r].
  right. left. reflexivity.
Qed.

(** With no other errors the loop ends without an exception. *)
Lemma year_loop_returns E output_dir years :
  no_other_errors E ->
  outcome (year_loop E output_dir years) = Ok tt.
Proof.
  intro Hgood. induction years as [|year years IH]; [reflexivity|].
  rewrite year_loop_cons.
  destruct (fetch_returns E year Hgood) as [features ->].
  destruct features as [|f features].
  - destruct (year_loop E output_dir years) as [evs r]. exact IH.
  - unfold save_bundle.
    destruct Hgood as (_ & Hopen & _). rewrite Hopen. cbn.
    destruct (year_loop E output_dir years) as [evs r]. exact IH.
Qed.

(* ================================================================= *)
(** ** File names *)

Lemma string_length_append (a b : string) :
  String.length (a ++ b)%string = (String.length a + String.length b)%nat.
Proof. induction a as [|c a IH]; simpl; [reflexivity | now rewrite IH]. Qed.

Lemma append_inj_l (s a b : string) : (s ++ a = s ++ b)%string -> a = b.
Proof.
  induction s as [|c s IH]; simpl; intro H; [exact H|].
  injection H as H. auto.
Qed.

Lemma append_inj_r (t : string) :
  forall a b : string, (a ++ t = b ++ t)%string -> a = b.
Proof.
  induction a as [|c a IH]; intros [|c' b] H; simpl in H.
  - reflexivity.
  - apply (f_equal String.length) in H. simpl in H.
    rewrite string_length_append in H. lia.
  - apply (f_equal String.length) in H. simpl in H.
    rewrite string_length_append in H. lia.
  - injection H as -> H. f_equal. now apply IH.
Qed.

Lemma str_of_int_inj (a b : Z) : str_of_int a = str_of_int b -> a = b.
Proof.
  unfold str_of_int. intro H.
  apply (f_equal NilEmpty.int_of_string) in H.
  rewrite !NilEmpty.isi in H. injection H as H.
  apply (f_equal Z.of_int) in H. now rewrite !DecimalZ.of_to in H.
Qed.

Lemma bundle_filename_inj (a b : Z) :
  bundle_filename a = bundle_filename b -> a = b.
Proof.
  unfold bundle_filename. intro H.
  apply append_inj_l, append_inj_r in H. now apply str_of_int_inj.
Qed.

(** A bundle file name does not start with a slash, so joining keeps
    the directory. *)
Lemma path_join_bundle_filename (output_dir : string) (year : Z) :
  path_join output_dir (bundle_filename year)
  = if negb (truthy output_dir)
       || Ascii.eqb (last (list_ascii_of_string output_dir) "000"%char) "/"
    then (output_dir ++ bundle_filename year)%string
    else (output_dir ++ "/" ++ bundle_filename year)%string.
Proof. reflexivity. Qed.

(** The bundles of two years go to two files. *)
Lemma bundle_path_inj (output_dir : string) (a b : Z) :
  path_join output_dir (bundle_filename a) = path_join output_dir (bundle_filename b) ->
  a = b.
Proof.
  rewrite !path_join_bundle_filename.
  destruct (negb (truthy output_dir) || _); intro H.
  - apply append_inj_l in H. now apply bundle_filename_inj.
  - apply append_inj_l, (append_inj_l "/") in H. now apply bundle_filename_inj.
Qed.

(* ================================================================= *)
(** ** Main *)

(** What [main] does once the output directory exists: the loop over
    the two years, then at most the lines for the CI. *)
Lemma main_events E :
  can_makedirs E (output_dir_of E) = true ->
  exists tail,
    events (main E)
    = Makedirs (output_dir_of E)
      :: events (year_loop E (output_dir_of E) [now_year E - 1; now_year E]) ++ tail /\
    forall ev, In ev tail -> exists path lines, ev = AppendText path lines.
Proof.
  intro Hdir. unfold main. fold (output_dir_of E). rewrite Hdir.
  unfold emit, ret, raise. cbn [io_bind app].
  destruct (year_loop E (output_dir_of E) [now_year E - 1; now_year E]) as [evs [[]|e]];
    cbn [io_bind app events fst].
  - destruct (github_output E) as [path|]; [destruct (truthy path); [destruct (can_open E path)|]|];
      cbn [io_bind app events fst].
    + eexists. split; [reflexivity|].
      intros ev [<- | []]. eauto.
    + exists []. split; [reflexivity | intros ev []].
    + exists []. split; [reflexivity | intros ev []].
    + exists []. split; [reflexivity | intros ev []].
  - exists []. split; [now rewrite app_nil_r | intros ev []].
Qed.

(** The exit status of a run that ends is 0. *)
Lemma main_exit_status E r : outcome (main E) = Ok r -> r = 0.
Proof.
  unfold main, emit, ret, raise.
  destruct (can_makedirs E _); cbn [io_bind]; [|discriminate].
  destruct (year_loop E _ _) as [evs [[]|e]]; cbn [io_bind]; [|discriminate].
  destruct (github_output E) as [path|]; [destruct (truthy path); [destruct (can_open E path)|]|];
    cbn [io_bind outcome snd]; try discriminate; now intros [= <-].
Qed.

(** With no other errors a run ends, whatever the fetches bring. *)
Lemma main_returns E : no_other_errors E -> outcome (main E) = Ok 0.
Proof.
  intro Hgood. pose proof (year_loop_returns E (output_dir_of E)
                             [now_year E - 1; now_year E] Hgood) as Hloop.
  destruct Hgood as (Hdir & Hopen & _).
  unfold main, emit, ret, raise. fold (output_dir_of E). rewrite Hdir. cbn [io_bind].
  destruct (year_loop E (output_dir_of E) [now_year E - 1; now_year E]) as [evs r].
  cbn [outcome snd] in Hloop. subst r. cbn [io_bind].
  destruct (github_output E) as [path|]; [destruct (truthy path)|]; rewrite ?Hopen;
    reflexivity.
Qed.

(** C7. A request that raises a RequestException or comes back with an
    error status, and a response text that is not well-formed XML, each
    give the empty feature list for the year and raise nothing; when
    this happens to the first year of [main] the request for the other
    year is still issued, and with no other errors the run ends with
    status 0. *)
Theorem C7_fetch_errors_give_empty_list :
  (forall E year,
      requests_get E (wfs_request year) = Raise RequestException ->
      fetch_burnt_areas E year = ([HttpGet (wfs_request year)], Ok [])) /\
  (forall E year response,
      requests_get E (wfs_request year) = Ok response ->
      400 <= status_code response < 600 ->
      fetch_burnt_areas E year = ([HttpGet (wfs_request year)], Ok [])) /\
  (forall E gml_text year,
      fromstring E gml_text = Raise ParseError ->
      parse_gml_response E gml_text year = Ok []) /\
  (forall E year,
      fetch_fails E year ->
      fetch_burnt_areas E year = ([HttpGet (wfs_request year)], Ok [])) /\
  (forall E,
      can_makedirs E (output_dir_of E) = true ->
      fetch_fails E (now_year E - 1) ->
      In (HttpGet (wfs_request (now_year E))) (events (main E))) /\
  (forall E,
      no_other_errors E ->
      outcome (main E) = Ok 0).
Proof.
  repeat split.
  - intros E year Hraise. apply fetch_fails_empty. now left.
  - intros E year response Hresp Hstatus. apply fetch_fails_empty.
    right. exists response. auto.
  - intros E gml_text year. apply parse_gml_response_malformed.
  - intros E year. apply fetch_fails_empty.
  - intros E Hdir Hfail.
    destruct (main_events E Hdir) as (tail & -> & _).
    right. apply in_or_app. left.
    rewrite year_loop_empty_year
      by (now rewrite (fetch_fails_empty E _ Hfail)).
    right. apply year_loop_first_request.
  - intro E. apply main_returns.
Qed.

(** With the network down the fetch of 2023 is empty and 2024 is still
    requested. *)
Lemma C7_offline_run :
  fetch_burnt_areas offline_env 2023 = ([HttpGet (wfs_request 2023)], Ok []) /\
  In (HttpGet (wfs_request 2024)) (events (main offline_env)).
Proof.
  split.
  - apply (proj1 C7_fetch_errors_give_empty_list). reflexivity.
  - apply (proj1 (proj2 (proj2 (proj2 (proj2 C7_fetch_errors_give_empty_list))))
             offline_env).
    + reflexivity.
    + left. reflexivity.
Defined.

(** The bundle of a year holds the year, the features and their
    number. *)
Lemma bundle_at_fields clock features year :
  json_field "year" (bundle_at clock features year) = Some (JInt year) /\
  json_field "featureCount" (bundle_at clock features year)
  = Some (JInt (Z.of_nat (List.length features))) /\
  json_field "features" (bundle_at clock features year)
  = Some (JArr (map json_of_feature features)).
Proof. repeat split; reflexivity. Qed.

(** C8. In a run of [main] whose output directory exists: if the fetch
    of the previous year returns the empty list, no bundle is written
    to the file of that year, whether that file could be opened or not;
    the request for the current year is issued, and if it returns
    features and the file of the current year opens, their bundle is
    written there.  If the fetch of the current year returns the empty
    list, no bundle is written to the file of that year; the request
    for the previous year has been issued, and if it returned features
    and the file of the previous year opens, their bundle has been
    written there. *)
Theorem C8_empty_year_writes_nothing E :
  can_makedirs E (output_dir_of E) = true ->
  (outcome (fetch_burnt_areas E (now_year E - 1)) = Ok [] ->
   (forall content,
       ~ In (WriteJson (bundle_path E (now_year E - 1)) content) (events (main E))) /\
   In (HttpGet (wfs_request (now_year E))) (events (main E)) /\
   (forall features,
       outcome (fetch_burnt_areas E (now_year E)) = Ok features ->
       features <> [] ->
       can_open E (bundle_path E (now_year E)) = true ->
       writes_bundle E (now_year E) features)) /\
  (outcome (fetch_burnt_areas E (now_year E)) = Ok [] ->
   (forall content,
       ~ In (WriteJson (bundle_path E (now_year E)) content) (events (main E))) /\
   In (HttpGet (wfs_request (now_year E - 1))) (events (main E)) /\
   (forall features,
       outcome (fetch_burnt_areas E (now_year E - 1)) = Ok features ->
       features <> [] ->
       can_open E (bundle_path E (now_year E - 1)) = true ->
       writes_bundle E (now_year E - 1) features)).
Proof.
  intro Hdir.
  destruct (main_events E Hdir) as (tail & Hmain & Htail).
  assert (Hnone : forall year content,
             outcome (fetch_burnt_areas E year) = Ok [] ->
             ~ In (WriteJson (bundle_path E year) content) (events (main E))).
  { intros year content Hempty Hin. rewrite Hmain in Hin.
    destruct Hin as [Hev | Hin]; [discriminate|].
    apply in_app_or in Hin. destruct Hin as [Hin | Hin].
    - apply year_loop_writes in Hin.
      destruct Hin as (y & f & fs & _ & Hpath & Hfetch).
      apply bundle_path_inj in Hpath. subst y. congruence.
    - destruct (Htail _ Hin) as (p & l & Hev). discriminate. }
  split; intro Hempty; (split; [intro content; now apply Hnone|]);
    (split; [rewrite Hmain|]).
  - right. apply in_or_app. left.
    rewrite (year_loop_empty_year _ _ _ _ Hempty).
    right. apply year_loop_first_request.
  - intros features Hfetch Hsome Hopen.
    exists (bundle_of E features (now_year E)).
    split; [|apply bundle_at_fields].
    rewrite Hmain. right. apply in_or_app. left.
    rewrite (year_loop_empty_year _ _ _ _ Hempty).
    right. now apply year_loop_first_bundle.
  - right. apply in_or_app. left. apply year_loop_first_request.
  - intros features Hfetch Hsome Hopen.
    exists (bundle_of E features (now_year E - 1)).
    split; [|apply bundle_at_fields].
    rewrite Hmain. right. apply in_or_app. left.
    now apply year_loop_first_bundle.
Qed.

(** In 2023 the sample document has nothing for 2022: nothing is
    written for 2022, and the bundle of 2023 is written with its one
    feature.  In 2025 it has nothing for 2025: nothing is written for
    2025, and the bundle of 2024 has been written with its two
    features. *)
Lemma C8_sample_document_runs :
  ((forall content,
       ~ In (WriteJson "/repo/scripts/../assets/cache/burnt_areas_2022_uk.json" content)
           (events (main first_season_env))) /\
   In (HttpGet (wfs_request 2023)) (events (main first_season_env)) /\
   exists content,
     In (WriteJson "/repo/scripts/../assets/cache/burnt_areas_2023_uk.json" content)
        (events (main first_season_env)) /\
     json_field "year" content = Some (JInt 2023) /\
     json_field "featureCount" content = Some (JInt 1)) /\
  ((forall content,
       ~ In (WriteJson "/repo/scripts/../assets/cache/burnt_areas_2025_uk.json" content)
           (events (main new_year_env))) /\
   In (HttpGet (wfs_request 2024)) (events (main new_year_env)) /\
   exists content,
     In (WriteJson "/repo/scripts/../assets/cache/burnt_areas_2024_uk.json" content)
        (events (main new_year_env)) /\
     json_field "year" content = Some (JInt 2024) /\
     json_field "featureCount" content = Some (JInt 2)).
Proof.
  split.
  - destruct (proj1 (C8_empty_year_writes_nothing first_season_env eq_refl))
      as (Hnone & Hrequest & Hwrite); [by_evaluation|].
    split; [exact Hnone|]. split; [exact Hrequest|].
    destruct (outcome (fetch_burnt_areas first_season_env 2023)) as [features|e] eqn:Hfetch;
      [|vm_compute in Hfetch; discriminate].
    assert (Hlen : match outcome (fetch_burnt_areas first_season_env 2023) with
                   | Ok fetched => List.length fetched
                   | Raise _ => 0%nat
                   end = 1%nat) by by_evaluation.
    rewrite Hfetch in Hlen.
    destruct (Hwrite features Hfetch) as (content & Hin & Hyear & Hcount & _).
    + intros ->. discriminate.
    + reflexivity.
    + exists content. rewrite Hlen in Hcount. auto.
  - destruct (proj2 (C8_empty_year_writes_nothing new_year_env eq_refl))
      as (Hnone & Hrequest & Hwrite); [by_evaluation|].
    split; [exact Hnone|]. split; [exact Hrequest|].
    destruct (outcome (fetch_burnt_areas new_year_env 2024)) as [features|e] eqn:Hfetch;
      [|vm_compute in Hfetch; discriminate].
    assert (Hlen : match outcome (fetch_burnt_areas new_year_env 2024) with
                   | Ok fetched => List.length fetched
                   | Raise _ => 0%nat
                   end = 2%nat) by by_evaluation.
    rewrite Hfetch in Hlen.
    destruct (Hwrite features Hfetch) as (content & Hin & Hyear & Hcount & _).
    + intros ->. discriminate.
    + reflexivity.
    + exists content. rewrite Hlen in Hcount. auto.
Defined.

(** C9. A run of [main] that ends returns the exit status 0, whatever
    the fetches of the two years bring: [success] is bound to [True]
    once and never changed, so the status 1 is out of reach.  With no
    other errors the run does end. *)
Theorem C9_exit_status_zero :
  (forall E r, outcome (main E) = Ok r -> r = 0) /\
  (forall E, outcome (main E) <> Ok 1) /\
  (forall E, no_other_errors E -> outcome (main E) = Ok 0).
Proof.
  repeat split.
  - apply main_exit_status.
  - intros E H. apply main_exit_status in H. discriminate.
  - apply main_returns.
Qed.

(** With the network down the run still ends with status 0. *)
Lemma C9_offline_run : outcome (main offline_env) = Ok 0.
Proof.
  apply (proj2 (proj2 C9_exit_status_zero) offline_env).
  repeat split; try reflexivity; intros ? e H; vm_compute in H; congruence.
Defined.

(* ================================================================= *)
(** ** The response parser *)

(** The loop over the members adds, member by member, what each member
    yields. *)
Lemma members_loop_flat_map alg year members :
  forall features,
    members_loop alg year members features
    = features ++ flat_map (member_features alg year) members.
Proof.
  induction members as [|member members IH]; intro features; simpl.
  - now rewrite app_nil_r.
  - unfold member_features at 1.
    destruct (ET.find member _ NAMESPACES) as [ba_elem|]; [|apply IH].
    destruct (parse_burnt_area_feature alg ba_elem year) as [feature|].
    + rewrite IH. now rewrite <- app_assoc.
    + apply IH.
Qed.

Lemma member_features_length alg year member :
  (List.length (member_features alg year member) <= 1)%nat.
Proof.
  unfold member_features.
  destruct (ET.find member _ NAMESPACES) as [ba_elem|]; [|simpl; lia].
  destruct (parse_burnt_area_feature alg ba_elem year); simpl; lia.
Qed.

Lemma flat_map_length_le {A B} (f : A -> list B) (xs : list A) :
  (forall x, (List.length (f x) <= 1)%nat) ->
  (List.length (flat_map f xs) <= List.length xs)%nat.
Proof.
  intro Hf. induction xs as [|x xs IH]; simpl; [lia|].
  rewrite length_app. specialize (Hf x). lia.
Qed.

(** X1. For a response that parses as XML, [parse_gml_response] returns,
    in document order, the feature of the first
    [ba:burnt_area_<year>] below each [wfs:member] that has one and
    whose feature is not given up: at most one feature for a member,
    each with the requested year as its [seasonYear]. *)
Theorem parse_gml_response_members E gml_text year root :
  fromstring E gml_text = Ok root ->
  let members := ET.findall root (ET.Descendant "wfs" "member") NAMESPACES in
  exists features,
    parse_gml_response E gml_text year = Ok features /\
    features = flat_map (member_features (sum_algorithm E) year) members /\
    (List.length features <= List.length members)%nat /\
    Forall (fun f => seasonYear f = year) features.
Proof.
  intros Hroot members. unfold parse_gml_response. rewrite Hroot.
  eexists. split; [reflexivity|]. fold members.
  rewrite members_loop_flat_map. cbn [app].
  split; [reflexivity|]. split.
  - apply flat_map_length_le. apply member_features_length.
  - apply Forall_forall. intros f Hin. apply in_flat_map in Hin.
    destruct Hin as (member & _ & Hin). unfold member_features in Hin.
    destruct (ET.find member _ NAMESPACES) as [ba_elem|]; [|destruct Hin].
    destruct (parse_burnt_area_feature (sum_algorithm E) ba_elem year) as [feature|] eqn:Hparse;
      [|destruct Hin].
    destruct Hin as [<- | []].
    destruct (parse_burnt_area_feature_inv _ _ _ _ Hparse) as (coords & area_ha & _ & _ & _ & ->).
    reflexivity.
Qed.

(** Of the four members of the sample document two yield a feature for
    2024. *)
Lemma parse_gml_response_sample :
  exists f g,
    parse_gml_response online_env "<wfs:FeatureCollection/>" 2024 = Ok [f; g] /\
    fid f = "burnt_area_2024.1" /\ fid g = "burnt_area_2024.7".
Proof.
  destruct (parse_gml_response_members online_env "<wfs:FeatureCollection/>" 2024
              sample_root eq_refl) as (features & Hparse & Hfeatures & _).
  rewrite Hparse, Hfeatures.
  do 2 eexists. split; [by_evaluation|]. split; reflexivity.
Defined.

(* ================================================================= *)
(** ** More on the feature extractor *)

Lemma mapM_raises {A B} (f : A -> result B) (xs : list A) (x : A) (e : exn) :
  In x xs -> f x = Raise e -> exists e', mapM f xs = Raise e'.
Proof.
  intros Hin Hx. induction xs as [|y xs IH]; [destruct Hin|].
  simpl. destruct Hin as [-> | Hin].
  - rewrite Hx. eauto.
  - destruct (f y); [|eauto].
    destruct (IH Hin) as [e' ->]. eauto.
Qed.

(** X2. One item of the coordinate list that is not a number gives up
    the whole feature, however many good pairs the list holds. *)
Theorem bad_coordinate_drops_feature alg elem year coords_elem coords_text item :
  ET.find elem (ET.Descendant "gml" "posList") NAMESPACES = Some coords_elem ->
  ET.text coords_elem = Some coords_text ->
  In item (split (strip coords_text)) ->
  parse_float item = None ->
  parse_burnt_area_feature alg elem year = None.
Proof.
  intros Hfind Htext Hitem Hbad.
  unfold parse_burnt_area_feature, parse_feature_body. rewrite Hfind, Htext.
  destruct (truthy coords_text); [|reflexivity]. simpl negb. cbv iota.
  destruct (mapM_raises float_of_string _ item ValueError Hitem) as [e' ->].
  - unfold float_of_string. now rewrite Hbad.
  - reflexivity.
Qed.

(** Five good pairs and the item ["west"]. *)
Lemma bad_coordinate_sample :
  parse_burnt_area_feature LeftToRight bad_token_elem 2024 = None.
Proof.
  apply (bad_coordinate_drops_feature LeftToRight bad_token_elem 2024
           (ET.Elem (gml_tag "posList") []
              (Some "49.1 -5.2 49.3 west 49.2 -5.1 49.0 -5.3 49.1 -5.2") [])
           "49.1 -5.2 49.3 west 49.2 -5.1 49.0 -5.3 49.1 -5.2" "west").
  - by_evaluation.
  - reflexivity.
  - vm_compute. tauto.
  - by_evaluation.
Defined.

(** X3. The feature depends on the element through four things only:
    its [gml:id], the text of its first [gml:posList], and the texts of
    [ba:area_ha] and [ba:firedate].  Further rings of the polygon (its
    holes) and all other children and attributes change nothing. *)
Theorem feature_reads_first_posList_only alg elem elem' year :
  ET.get elem "{http://www.opengis.net/gml/3.2}id" ""
  = ET.get elem' "{http://www.opengis.net/gml/3.2}id" "" ->
  posList_text elem = posList_text elem' ->
  area_text elem = area_text elem' ->
  firedate_text elem = firedate_text elem' ->
  parse_burnt_area_feature alg elem year = parse_burnt_area_feature alg elem' year.
Proof.
  unfold posList_text, area_text, firedate_text.
  intros Hid Hpos Harea Hdate.
  unfold parse_burnt_area_feature, parse_feature_body.
  rewrite Hid, Harea, Hdate.
  destruct (ET.find elem _ NAMESPACES) as [coords_elem|];
    destruct (ET.find elem' (ET.Descendant "gml" "posList") NAMESPACES) as [coords_elem'|];
    rewrite ?Hpos, <- ?Hpos; reflexivity.
Qed.

(** The hole of the sample polygon is not read. *)
Lemma hole_is_ignored :
  parse_burnt_area_feature LeftToRight with_hole_elem 2024
  = parse_burnt_area_feature LeftToRight spec_example 2024.
Proof.
  apply feature_reads_first_posList_only; by_evaluation.
Defined.

Lemma lat_lon_values_swap_pairs (coords : list float) :
  lat_lon_values (swap_pairs coords)
  = firstn (2 * Nat.div2 (List.length coords)) coords.
Proof.
  induction coords as [| x | lat lon rest IH] using list_pair_ind; auto.
  change (List.length (lat :: lon :: rest)) with (S (S (List.length rest))).
  change (Nat.div2 (S (S (List.length rest)))) with (S (Nat.div2 (List.length rest))).
  replace (2 * S (Nat.div2 (List.length rest)))%nat
    with (S (S (2 * Nat.div2 (List.length rest)))) by lia.
  cbn [swap_pairs lat_lon_values flat_map firstn app snd fst].
  do 2 f_equal. exact IH.
Qed.

(** X4. Nothing is lost or changed when the coordinates become
    boundary points: written back as [lat, lon, lat, lon, ...] the
    boundary points of a returned feature are the coordinate list up to
    its last full pair, and the whole list when it has an even number
    of values. *)
Theorem boundary_points_keep_coordinates alg elem year coords f :
  posList_floats elem coords ->
  parse_burnt_area_feature alg elem year = Some f ->
  lat_lon_values (boundaryPoints f) = firstn (2 * (List.length coords / 2)) coords /\
  (Nat.even (List.length coords) = true -> lat_lon_values (boundaryPoints f) = coords).
Proof.
  intros Hcoords Hparse.
  destruct (parse_burnt_area_feature_inv alg elem year f Hparse)
    as (coords' & area_ha & Hcoords' & _ & _ & ->).
  rewrite <- (posList_floats_unique elem coords coords' Hcoords Hcoords').
  cbn [boundaryPoints feature_of].
  rewrite lat_lon_values_swap_pairs, <- Nat.div2_div.
  split; [reflexivity|].
  intro Heven. apply firstn_all2.
  apply Nat.even_spec in Heven. destruct Heven as [k ->].
  rewrite Nat.div2_double. lia.
Qed.

(** The six values of the spec's example come back in their order. *)
Lemma boundary_points_keep_example :
  exists f,
    parse_burnt_area_feature LeftToRight spec_example 2024 = Some f /\
    lat_lon_values (boundaryPoints f) = [49.1; -5.2; 49.3; -5.0; 49.2; -5.1]%float.
Proof.
  assert (Hcoords : posList_floats spec_example
                      [49.1; -5.2; 49.3; -5.0; 49.2; -5.1]%float)
    by read_posList.
  destruct (parse_burnt_area_feature LeftToRight spec_example 2024) as [f|] eqn:Hparse;
    [|vm_compute in Hparse; discriminate].
  exists f. split; [reflexivity|].
  exact (proj2 (boundary_points_keep_coordinates _ _ _ _ _ Hcoords Hparse) eq_refl).
Defined.

(* ================================================================= *)
(** ** The fire date *)

Lemma in_range_spec lo hi c : in_range lo hi c = true -> lo <= code c <= hi.
Proof. unfold in_range. intro H. apply andb_true_iff in H. lia. Qed.

Ltac split_ascii c := destruct c as [[] [] [] [] [] [] [] []].

(** Reads the bounds of a month or day off the alternative that
    produced it. *)
Ltac alt_bounds :=
  repeat match goal with
    | H : In _ (_ ++ _) |- _ => apply in_app_or in H; destruct H as [H|H]
    | H : In _ (if ?b then _ else _) |- _ => destruct b eqn:?
    | H : In _ [] |- _ => destruct H
    | H : In _ [_] |- _ =>
        destruct H as [H|[]]; apply pair_equal_spec in H; destruct H as [<- <-]
    | H : _ && _ = true |- _ => apply andb_true_iff in H; destruct H
    | H : isdigit _ = true |- _ => apply in_range_spec in H
    | H : in_range _ _ _ = true |- _ => apply in_range_spec in H
    end;
  unfold digit_val; lia.

Lemma month_alts_bounds s m r : In (m, r) (month_alts s) -> 1 <= m <= 12.
Proof.
  unfold month_alts. intro H.
  destruct s as [|c1 [|c2 s]]; [destruct H | |];
    split_ascii c1; cbv beta iota in H; alt_bounds.
Qed.

Lemma day_alts_bounds s d r : In (d, r) (day_alts s) -> 1 <= d <= 31.
Proof.
  unfold day_alts. intro H.
  destruct s as [|c1 [|c2 s]]; [destruct H | |];
    split_ascii c1; cbv beta iota in H; alt_bounds.
Qed.

Lemma match_month_day_bounds alts m d r :
  (forall m' r', In (m', r') alts -> 1 <= m' <= 12) ->
  match_month_day alts = Some (m, d, r) ->
  1 <= m <= 12 /\ 1 <= d <= 31.
Proof.
  induction alts as [|[m' s] alts IH]; intros Hall Hmatch; [discriminate|].
  assert (Hrest : match_month_day alts = Some (m, d, r) -> 1 <= m <= 12 /\ 1 <= d <= 31).
  { apply IH. intros m0 r0 Hin. apply (Hall m0 r0). now right. }
  cbn [match_month_day] in Hmatch.
  destruct s as [|c s]; [auto|].
  split_ascii c; auto.
  destruct (day_alts s) as [|[d' r'] rest] eqn:Hday; [auto|].
  injection Hmatch as <- <- <-. split.
  - apply (Hall m' ("-"%char :: s)). now left.
  - apply (day_alts_bounds s d' r'). rewrite Hday. now left.
Qed.

(** A text that reads as a date names a date of the calendar. *)
Lemma parse_Ymd_valid s y m d : parse_Ymd s = Some (y, m, d) -> valid_date y m d.
Proof.
  unfold parse_Ymd. intro H.
  destruct (list_ascii_of_string s) as [|y1 [|y2 [|y3 [|y4 [|c r]]]]]; try discriminate.
  split_ascii c; try discriminate.
  destruct (isdigit y1 && isdigit y2 && isdigit y3 && isdigit y4) eqn:Hdigits;
    [|discriminate].
  destruct (match_month_day (month_alts r)) as [[[m' d'] r']|] eqn:Hmd; [|discriminate].
  destruct r'; [|discriminate].
  destruct ((1 <=? digits_val [y1; y2; y3; y4]) && (d' <=? days_in_month _ m')) eqn:Hok;
    [|discriminate].
  injection H as <- <- <-.
  apply match_month_day_bounds in Hmd; [|apply month_alts_bounds].
  apply andb_true_iff in Hok. destruct Hok as [Hy Hd].
  repeat (apply andb_true_iff in Hdigits; destruct Hdigits as [Hdigits ?]).
  repeat match goal with
         | H : isdigit _ = true |- _ => apply in_range_spec in H
         end.
  unfold valid_date. cbn [digits_val fold_left] in *. unfold digit_val in *.
  lia.
Qed.

Lemma length_string_of_list_ascii (l : list ascii) :
  String.length (string_of_list_ascii l) = List.length l.
Proof. induction l; simpl; auto. Qed.

Lemma length_list_ascii_of_string (s : string) :
  List.length (list_ascii_of_string s) = String.length s.
Proof. induction s; simpl; auto. Qed.

Lemma digit_in_list d :
  0 <= d <= 9 -> In d [0; 1; 2; 3; 4; 5; 6; 7; 8; 9].
Proof.
  intro Hd.
  assert (H : d = 0 \/ d = 1 \/ d = 2 \/ d = 3 \/ d = 4 \/ d = 5 \/ d = 6 \/ d = 7
              \/ d = 8 \/ d = 9) by lia.
  cbn [In]. intuition.
Qed.

(** A number below 10000 is made of four decimal digits. *)
Lemma four_digits y :
  0 <= y <= 9999 ->
  exists a b c d,
    In a [0; 1; 2; 3; 4; 5; 6; 7; 8; 9] /\ In b [0; 1; 2; 3; 4; 5; 6; 7; 8; 9] /\
    In c [0; 1; 2; 3; 4; 5; 6; 7; 8; 9] /\ In d [0; 1; 2; 3; 4; 5; 6; 7; 8; 9] /\
    y = 1000 * a + 100 * b + 10 * c + d.
Proof.
  intro Hy.
  exists (y / 1000), ((y / 100) mod 10), ((y / 10) mod 10), (y mod 10).
  pose proof (Z.div_mod y 1000 ltac:(lia)) as H1.
  pose proof (Z.mod_pos_bound y 1000 ltac:(lia)) as B1.
  pose proof (Z.div_mod y 100 ltac:(lia)) as H2.
  pose proof (Z.mod_pos_bound y 100 ltac:(lia)) as B2.
  pose proof (Z.div_mod y 10 ltac:(lia)) as H3.
  pose proof (Z.mod_pos_bound y 10 ltac:(lia)) as B3.
  pose proof (Z.div_mod (y / 100) 10 ltac:(lia)) as H4.
  pose proof (Z.mod_pos_bound (y / 100) 10 ltac:(lia)) as B4.
  pose proof (Z.div_mod (y / 10) 10 ltac:(lia)) as H5.
  pose proof (Z.mod_pos_bound (y / 10) 10 ltac:(lia)) as B5.
  repeat split; try apply digit_in_list; lia.
Qed.

(** The four digits of a year, padded with zeros, checked on every
    year from 0 to 9999, digit by digit. *)
Lemma zero_pad_4_digits y :
  0 <= y <= 9999 ->
  exists y1 y2 y3 y4,
    list_ascii_of_string (zero_pad 4 y) = [y1; y2; y3; y4] /\
    isdigit y1 && isdigit y2 && isdigit y3 && isdigit y4 = true /\
    digits_val [y1; y2; y3; y4] = y.
Proof.
  intro Hy.
  destruct (four_digits y Hy) as (a & b & c & d & Ha & Hb & Hc & Hd & Hsum).
  assert (Hall : forallb
                   (fun a =>
                      forallb
                        (fun b =>
                           forallb
                             (fun c =>
                                forallb
                                  (fun d =>
                                     match list_ascii_of_string
                                             (zero_pad 4 (1000 * a + 100 * b + 10 * c + d)) with
                                     | [y1; y2; y3; y4] =>
                                         isdigit y1 && isdigit y2 && isdigit y3 && isdigit y4
                                         && (digits_val [y1; y2; y3; y4]
                                             =? 1000 * a + 100 * b + 10 * c + d)
                                     | _ => false
                                     end)
                                  [0; 1; 2; 3; 4; 5; 6; 7; 8; 9])
                             [0; 1; 2; 3; 4; 5; 6; 7; 8; 9])
                        [0; 1; 2; 3; 4; 5; 6; 7; 8; 9])
                   [0; 1; 2; 3; 4; 5; 6; 7; 8; 9] = true) by by_evaluation.
  pose proof (proj1 (forallb_forall _ _) Hall a Ha) as Hall1. clear Hall.
  pose proof (proj1 (forallb_forall _ _) Hall1 b Hb) as Hall2. clear Hall1.
  pose proof (proj1 (forallb_forall _ _) Hall2 c Hc) as Hall3. clear Hall2.
  pose proof (proj1 (forallb_forall _ _) Hall3 d Hd) as Hcheck. clear Hall3.
  cbv beta in Hcheck. rewrite <- Hsum in Hcheck. clear Ha Hb Hc Hd Hsum.
  destruct (list_ascii_of_string (zero_pad 4 y)) as [|y1 [|y2 [|y3 [|y4 [|]]]]];
    try discriminate.
  apply andb_true_iff in Hcheck. destruct Hcheck as [Hdigits Hval].
  exists y1, y2, y3, y4. repeat split; auto. now apply Z.eqb_eq.
Qed.

Lemma zero_pad_4_length y :
  0 <= y <= 9999 -> String.length (zero_pad 4 y) = 4%nat.
Proof.
  intro Hy. destruct (zero_pad_4_digits y Hy) as (y1 & y2 & y3 & y4 & Hlist & _).
  now rewrite <- length_list_ascii_of_string, Hlist.
Qed.

Lemma zero_pad_2_length n :
  0 <= n <= 99 -> String.length (zero_pad 2 n) = 2%nat.
Proof.
  intro Hn.
  assert (Hall : forallb (fun k => (String.length (zero_pad 2 (Z.of_nat k)) =? 2)%nat)
                   (seq 0 100) = true) by by_evaluation.
  rewrite forallb_forall in Hall.
  specialize (Hall (Z.to_nat n)). rewrite Z2Nat.id in Hall by lia.
  apply Nat.eqb_eq, Hall, in_seq. lia.
Qed.

Lemma days_in_month_le y m : days_in_month y m <= 31.
Proof.
  unfold days_in_month.
  repeat match goal with |- context [if ?b then _ else _] => destruct b end; lia.
Qed.

Lemma isoformat_date_length y m d :
  valid_date y m d -> String.length (isoformat_date (y, m, d)) = 10%nat.
Proof.
  intros (Hy & Hm & Hd). pose proof (days_in_month_le y m).
  unfold isoformat_date. rewrite !string_length_append.
  rewrite zero_pad_4_length, !zero_pad_2_length by lia. reflexivity.
Qed.

Lemma slice_to_length n s :
  String.length (slice_to n s) = Nat.min n (String.length s).
Proof.
  unfold slice_to. revert s.
  induction n as [|n IH]; intros [|c s]; simpl; auto.
Qed.

Lemma fire_date_of_length s r :
  fire_date_of s = Some r -> String.length r = 10%nat.
Proof.
  unfold fire_date_of.
  destruct (truthy s); [|discriminate].
  destruct (parse_Ymd (slice_to 10 s)) as [[[y m] d]|] eqn:Hparse.
  - intros [= <-]. apply isoformat_date_length.
    now apply (parse_Ymd_valid (slice_to 10 s)).
  - destruct (Z.leb_spec 10 (len s)) as [Hlen|]; [|discriminate].
    intros [= <-]. rewrite slice_to_length. unfold len in Hlen. lia.
Qed.

(** X5. The [fireDate] of a returned feature is null or a string of
    exactly 10 characters, whatever [ba:firedate] holds. *)
Theorem fire_date_null_or_ten_characters alg elem year f :
  parse_burnt_area_feature alg elem year = Some f ->
  fireDate f = None \/
  exists s, fireDate f = Some s /\ String.length s = 10%nat.
Proof.
  intro Hparse.
  destruct (parse_burnt_area_feature_inv alg elem year f Hparse)
    as (coords & area_ha & _ & _ & _ & ->).
  cbn [fireDate feature_of].
  destruct (fire_date_of (firedate_text elem)) as [s|] eqn:Hdate; [|now left].
  right. exists s. split; [reflexivity|]. exact (fire_date_of_length _ s Hdate).
Qed.

(** The fire date with a time is cut to its date. *)
Lemma fire_date_of_spec_example :
  exists f,
    parse_burnt_area_feature LeftToRight spec_example 2024 = Some f /\
    fireDate f = Some "2024-07-15" /\
    (fireDate f = None \/ exists s, fireDate f = Some s /\ String.length s = 10%nat).
Proof.
  destruct (parse_burnt_area_feature LeftToRight spec_example 2024) as [f|] eqn:Hparse;
    [|vm_compute in Hparse; discriminate].
  exists f. split; [reflexivity|].
  split; [|exact (fire_date_null_or_ten_characters _ _ _ _ Hparse)].
  vm_compute in Hparse. now injection Hparse as <-.
Defined.

Lemma month_day_read m d :
  1 <= m <= 12 -> 1 <= d <= 31 ->
  match_month_day
    (month_alts (list_ascii_of_string (zero_pad 2 m ++ "-" ++ zero_pad 2 d)%string))
  = Some (m, d, []).
Proof.
  intros Hm Hd.
  assert (Hall : forallb
                   (fun i =>
                      forallb
                        (fun j =>
                           match match_month_day
                                   (month_alts
                                      (list_ascii_of_string
                                         (zero_pad 2 (Z.of_nat i) ++ "-"
                                          ++ zero_pad 2 (Z.of_nat j))%string)) with
                           | Some (m', d', []) => (m' =? Z.of_nat i) && (d' =? Z.of_nat j)
                           | _ => false
                           end)
                        (seq 1 31))
                   (seq 1 12) = true) by by_evaluation.
  rewrite forallb_forall in Hall.
  specialize (Hall (Z.to_nat m)).
  assert (Him : In (Z.to_nat m) (seq 1 12)) by (apply in_seq; lia).
  specialize (Hall Him). rewrite forallb_forall in Hall.
  specialize (Hall (Z.to_nat d)).
  assert (Hid : In (Z.to_nat d) (seq 1 31)) by (apply in_seq; lia).
  specialize (Hall Hid). rewrite !Z2Nat.id in Hall by lia.
  destruct (match_month_day _) as [[[m' d'] [|]]|]; try discriminate.
  apply andb_true_iff in Hall. destruct Hall as [Hm' Hd'].
  apply Z.eqb_eq in Hm', Hd'. now subst.
Qed.

Lemma list_ascii_of_string_append (a b : string) :
  list_ascii_of_string (a ++ b)%string
  = list_ascii_of_string a ++ list_ascii_of_string b.
Proof. induction a as [|c a IH]; simpl; [reflexivity | now rewrite IH]. Qed.

(** Reading the ISO form of a date gives the date back. *)
Lemma parse_Ymd_isoformat_date y m d :
  valid_date y m d -> parse_Ymd (isoformat_date (y, m, d)) = Some (y, m, d).
Proof.
  intros (Hy & Hm & Hd). pose proof (days_in_month_le y m) as Hmax.
  unfold parse_Ymd, isoformat_date.
  rewrite list_ascii_of_string_append.
  destruct (zero_pad_4_digits y) as (y1 & y2 & y3 & y4 & -> & Hdigits & Hval); [lia|].
  change (list_ascii_of_string ("-" ++ zero_pad 2 m ++ "-" ++ zero_pad 2 d)%string)
    with ("-"%char :: list_ascii_of_string (zero_pad 2 m ++ "-" ++ zero_pad 2 d)%string).
  cbn [app]. cbv beta iota.
  rewrite Hdigits, month_day_read by lia.
  rewrite Hval.
  destruct (Z.leb_spec 1 y); [|lia].
  destruct (Z.leb_spec d (days_in_month y m)); [|lia].
  reflexivity.
Qed.

Lemma slice_to_append (a b : string) :
  slice_to (String.length a) (a ++ b)%string = a.
Proof.
  unfold slice_to. induction a as [|c a IH]; simpl.
  - now destruct b.
  - now rewrite IH.
Qed.

(** X6. A fire date that starts with a calendar date in the form
    [YYYY-MM-DD] is kept as that date, whatever follows it (a time, a
    zone): reading the ISO form of a date and writing it again changes
    nothing. *)
Theorem iso_fire_date_is_kept alg elem year f y m d rest :
  valid_date y m d ->
  firedate_text elem = (isoformat_date (y, m, d) ++ rest)%string ->
  parse_burnt_area_feature alg elem year = Some f ->
  strptime_Ymd (isoformat_date (y, m, d)) = Ok (y, m, d) /\
  fireDate f = Some (isoformat_date (y, m, d)).
Proof.
  intros Hvalid Htext Hparse.
  pose proof (parse_Ymd_isoformat_date y m d Hvalid) as Hread.
  pose proof (isoformat_date_length y m d Hvalid) as Hlen.
  split; [unfold strptime_Ymd; now rewrite Hread|].
  destruct (parse_burnt_area_feature_inv alg elem year f Hparse)
    as (coords & area_ha & _ & _ & _ & ->).
  assert (Hslice : slice_to 10 (isoformat_date (y, m, d) ++ rest)%string
                   = isoformat_date (y, m, d))
    by (rewrite <- Hlen; apply slice_to_append).
  cbn [fireDate feature_of]. rewrite Htext. unfold fire_date_of.
  rewrite Hslice, Hread.
  destruct (isoformat_date (y, m, d)); [discriminate Hlen | reflexivity].
Qed.

(** The fire date of the spec's example with its time. *)
Lemma iso_fire_date_of_spec_example :
  valid_date 2024 7 15 /\
  exists f,
    parse_burnt_area_feature LeftToRight spec_example 2024 = Some f /\
    fireDate f = Some "2024-07-15".
Proof.
  assert (Hvalid : valid_date 2024 7 15) by (vm_compute; intuition discriminate).
  split; [exact Hvalid|].
  destruct (parse_burnt_area_feature LeftToRight spec_example 2024) as [f|] eqn:Hparse;
    [|vm_compute in Hparse; discriminate].
  exists f. split; [reflexivity|].
  exact (proj2 (iso_fire_date_is_kept LeftToRight spec_example 2024 f 2024 7 15
                  "T00:00:00" Hvalid eq_refl Hparse)).
Defined.

(* ================================================================= *)
(** ** More on fetching *)

(** X7. Only the status codes 400 to 599 count as a failed fetch: the
    text of a response with any other status is parsed, whatever the
    status says.  And only a RequestException is caught: any other
    exception of the request leaves [fetch_burnt_areas]. *)
Theorem fetch_parses_other_statuses :
  (forall E year response,
      requests_get E (wfs_request year) = Ok response ->
      status_code response < 400 \/ 600 <= status_code response ->
      fetch_burnt_areas E year
      = ([HttpGet (wfs_request year)],
         parse_gml_response E (response_text response) year)) /\
  (forall E year e,
      requests_get E (wfs_request year) = Raise e ->
      e <> RequestException ->
      fetch_burnt_areas E year = ([HttpGet (wfs_request year)], Raise e)).
Proof.
  split.
  - intros E year response Hresp Hstatus.
    unfold fetch_burnt_areas. rewrite Hresp. cbn [bind].
    unfold raise_for_status.
    replace ((400 <=? status_code response) && (status_code response <? 600))
      with false by (symmetry; apply andb_false_iff; lia).
    cbn [bind].
    destruct (parse_gml_response E (response_text response) year); reflexivity.
  - intros E year e Hraise Hother.
    unfold fetch_burnt_areas. rewrite Hraise. cbn [bind].
    destruct e; try reflexivity. contradiction.
Qed.

(** A redirect whose text is the sample document is parsed like any
    answer. *)
Lemma fetch_parses_a_redirect :
  let E := {| sum_algorithm := LeftToRight;
              requests_get := fun _ => Ok {| status_code := 302; response_text := "" |};
              fromstring := fun _ => Ok sample_root;
              now_year := 2024;
              utcnow_isoformat := fun _ => "";
              script_dir := "";
              github_output := None;
              can_makedirs := fun _ => true;
              can_open := fun _ => true |} in
  exists f, fetch_burnt_areas E 2023 = ([HttpGet (wfs_request 2023)], Ok [f]).
Proof.
  intro E.
  rewrite (proj1 fetch_parses_other_statuses E 2023
             {| status_code := 302; response_text := "" |} eq_refl)
    by (cbn; lia).
  eexists. by_evaluation.
Defined.

(* ================================================================= *)
(** ** More on main *)

Lemma save_bundle_unfold E features year output_dir :
  save_bundle E features year output_dir
  = if can_open E (path_join output_dir (bundle_filename year))
    then ([WriteJson (path_join output_dir (bundle_filename year))
             (bundle_of E features year)],
          Ok (path_join output_dir (bundle_filename year)))
    else ([], Raise OSError).
Proof. unfold save_bundle. now destruct (can_open E _). Qed.

(** One turn of the loop of [main], with the bundle spelled out. *)
Lemma year_loop_step E year years :
  year_loop E (output_dir_of E) (year :: years)
  = match outcome (fetch_burnt_areas E year) with
    | Ok (f :: features) =>
        if can_open E (bundle_path E year) then
          let '(evs, r) := year_loop E (output_dir_of E) years in
          (year_events E year ++ evs, r)
        else ([HttpGet (wfs_request year)], Raise OSError)
    | Ok [] =>
        let '(evs, r) := year_loop E (output_dir_of E) years in
        (year_events E year ++ evs, r)
    | Raise e => ([HttpGet (wfs_request year)], Raise e)
    end.
Proof.
  rewrite year_loop_cons. unfold year_events, year_events_at.
  destruct (outcome (fetch_burnt_areas E year)) as [[|f features]|e]; try reflexivity.
  rewrite save_bundle_unfold. fold (bundle_path E year).
  destruct (can_open E (bundle_path E year)); reflexivity.
Qed.

(** A run whose output directory exists: the loop, then the CI lines. *)
Lemma main_unfold E :
  can_makedirs E (output_dir_of E) = true ->
  main E
  = match year_loop E (output_dir_of E) [now_year E - 1; now_year E] with
    | (evs, Ok _) =>
        (Makedirs (output_dir_of E) :: evs ++ events (ci_output E),
         outcome (ci_output E))
    | (evs, Raise e) => (Makedirs (output_dir_of E) :: evs, Raise e)
    end.
Proof.
  intro Hdir. unfold main. fold (output_dir_of E). rewrite Hdir.
  unfold emit, ret, raise, ci_output, github_lines. cbn [io_bind app].
  destruct (year_loop E (output_dir_of E) [now_year E - 1; now_year E]) as [evs [[]|e]];
    cbn [io_bind app]; [|reflexivity].
  destruct (github_output E) as [path|]; [destruct (truthy path); [destruct (can_open E path)|]|];
    cbn [io_bind app events outcome fst snd]; rewrite ?app_nil_r; reflexivity.
Qed.


(** A run without other errors, each bundle stamped with the reading
    that the clock gives to the call that saves it. *)
Lemma main_without_errors E :
  no_other_errors E ->
  main E
  = (Makedirs (output_dir_of E)
     :: year_events E (now_year E - 1) ++ year_events E (now_year E)
        ++ events (ci_output E),
     Ok 0).
Proof.
  intro Hgood.
  destruct (fetch_returns E (now_year E - 1) Hgood) as [fs1 Hf1].
  destruct (fetch_returns E (now_year E) Hgood) as [fs2 Hf2].
  destruct Hgood as (Hdir & Hopen & _).
  rewrite (main_unfold E (Hdir _)).
  rewrite !year_loop_step, Hf1, Hf2, !Hopen. cbn [year_loop].
  assert (Hci : outcome (ci_output E) = Ok 0).
  { unfold ci_output.
    destruct (github_output E) as [path|]; [destruct (truthy path)|]; rewrite ?Hopen;
      reflexivity. }
  rewrite Hci.
  destruct fs1, fs2; unfold ret; cbn [app]; rewrite ?app_nil_r, <- ?app_assoc; reflexivity.
Qed.



(** X9. Errors of the file system are not caught.  If the output
    directory cannot be created the run raises before any request.  If
    the bundle of the previous year cannot be opened the run raises
    right there: the current year is never requested.  If the bundle of
    the current year cannot be opened the run raises as well, and the
    CI lines are not written. *)
Theorem file_errors_abort_the_run E :
  (can_makedirs E (output_dir_of E) = false -> main E = ([], Raise OSError)) /\
  (forall f features,
      can_makedirs E (output_dir_of E) = true ->
      outcome (fetch_burnt_areas E (now_year E - 1)) = Ok (f :: features) ->
      can_open E (bundle_path E (now_year E - 1)) = false ->
      main E
      = ([Makedirs (output_dir_of E); HttpGet (wfs_request (now_year E - 1))],
         Raise OSError)) /\
  (forall f features,
      can_makedirs E (output_dir_of E) = true ->
      outcome (fetch_burnt_areas E (now_year E)) = Ok (f :: features) ->
      can_open E (bundle_path E (now_year E)) = false ->
      (exists e, outcome (main E) = Raise e) /\
      forall path lines, ~ In (AppendText path lines) (events (main E))).
Proof.
  split; [|split].
  - intro Hdir. unfold main. fold (output_dir_of E). now rewrite Hdir.
  - intros f features Hdir Hfetch Hopen.
    rewrite (main_unfold E Hdir), year_loop_step, Hfetch, Hopen. reflexivity.
  - intros f features Hdir Hfetch Hopen.
    rewrite (main_unfold E Hdir), !year_loop_step, Hfetch, Hopen. cbn [year_loop].
    unfold year_events, year_events_at.
    destruct (outcome (fetch_burnt_areas E (now_year E - 1))) as [[|g gs]|e];
      [ | destruct (can_open E (bundle_path E (now_year E - 1))) | ];
      (split;
       [ eexists; reflexivity
       | intros path lines; cbn [app events fst In]; intuition discriminate ]).
Qed.

(** On a disk where no file opens the run stops at the bundle of 2023. *)
Lemma file_errors_abort_read_only :
  main read_only_env
  = ([Makedirs "/repo/scripts/../assets/cache"; HttpGet (wfs_request 2023)],
     Raise OSError).
Proof.
  destruct (outcome (fetch_burnt_areas read_only_env 2023)) as [[|f features]|e] eqn:Hfetch;
    try (vm_compute in Hfetch; discriminate).
  exact (proj1 (proj2 (file_errors_abort_the_run read_only_env))
           f features eq_refl Hfetch eq_refl).
Defined.

(* ----------------------------------------------------------------- *)
(** *** Requests *)

Lemma wfs_request_inj (a b : Z) : wfs_request a = wfs_request b -> a = b.
Proof.
  unfold wfs_request. intro H. injection H as H.
  now apply str_of_int_inj.
Qed.

Lemma events_pair {A} (evs : list Event) (r : result A) : events (evs, r) = evs.
Proof. reflexivity. Qed.

Lemma requests_of_app (a b : list Event) :
  requests_of (a ++ b) = requests_of a ++ requests_of b.
Proof. apply flat_map_app. Qed.

Lemma requests_of_year_events E year :
  requests_of (year_events E year) = [wfs_request year].
Proof.
  unfold year_events, year_events_at.
  now destruct (outcome (fetch_burnt_areas E year)) as [[|f features]|e].
Qed.

Lemma requests_of_ci_output E : requests_of (events (ci_output E)) = [].
Proof.
  unfold ci_output.
  destruct (github_output E) as [path|]; [destruct (truthy path); [destruct (can_open E path)|]|];
    reflexivity.
Qed.

(** The requests of the loop are those of its first years, one each. *)
Lemma year_loop_requests E years :
  exists n,
    requests_of (events (year_loop E (output_dir_of E) years))
    = firstn n (map wfs_request years).
Proof.
  induction years as [|year years [n IH]]; [now exists 0%nat|].
  rewrite year_loop_step.
  destruct (outcome (fetch_burnt_areas E year)) as [[|f features]|e] eqn:Hfetch;
    [ | destruct (can_open E (bundle_path E year)) | ];
    try (exists 1%nat; destruct years; reflexivity);
    destruct (year_loop E (output_dir_of E) years) as [evs r];
    exists (S n); cbn [events fst] in *;
    now rewrite requests_of_app, requests_of_year_events, IH.
Qed.

(** X10. There is no retry: whatever happens, a run issues at most two
    requests, one for the previous year and then one for the current
    year, and never the same request twice. *)
Theorem main_never_retries E :
  (exists n,
      requests_of (events (main E))
      = firstn n [wfs_request (now_year E - 1); wfs_request (now_year E)]) /\
  NoDup (requests_of (events (main E))).
Proof.
  assert (Hprefix : exists n,
             requests_of (events (main E))
             = firstn n [wfs_request (now_year E - 1); wfs_request (now_year E)]).
  { destruct (can_makedirs E (output_dir_of E)) eqn:Hdir.
    - rewrite (main_unfold E Hdir).
      destruct (year_loop_requests E [now_year E - 1; now_year E]) as [n Hn].
      destruct (year_loop E (output_dir_of E) [now_year E - 1; now_year E]) as [evs [[]|e]];
        rewrite events_pair in Hn; rewrite events_pair; exists n.
      + change (requests_of (Makedirs (output_dir_of E) :: evs ++ events (ci_output E)))
          with (requests_of (evs ++ events (ci_output E))).
        now rewrite requests_of_app, requests_of_ci_output, Hn, app_nil_r.
      + exact Hn.
    - exists 0%nat. unfold main. fold (output_dir_of E). now rewrite Hdir. }
  split; [exact Hprefix|].
  destruct Hprefix as [n ->].
  assert (Hne : wfs_request (now_year E - 1) <> wfs_request (now_year E))
    by (intro H; apply wfs_request_inj in H; lia).
  destruct n as [|[|n]]; cbn [firstn]; rewrite ?firstn_nil.
  - constructor.
  - constructor; [intro Hin; destruct Hin | constructor].
  - constructor;
      [intro Hin; destruct Hin as [Hin | Hin]; [now apply Hne | destruct Hin] | ].
    constructor; [intro Hin; destruct Hin | constructor].
Qed.

(** Offline both requests are issued, each once. *)
Lemma main_requests_offline :
  requests_of (events (main offline_env)) = [wfs_request 2023; wfs_request 2024] /\
  NoDup (requests_of (events (main offline_env))).
Proof.
  split; [by_evaluation | exact (proj2 (main_never_retries offline_env))].
Defined.

(* ----------------------------------------------------------------- *)
(** *** Bundles and CI lines *)

(** The loop writes bundles only: the bundle of a year of the loop
    whose fetch brought features, holding those features, to the file
    of that year. *)
Lemma year_loop_events E years ev :
  In ev (events (year_loop E (output_dir_of E) years)) ->
  exists year,
    In year years /\
    (ev = HttpGet (wfs_request year) \/
     exists f features,
       outcome (fetch_burnt_areas E year) = Ok (f :: features) /\
       ev = WriteJson (bundle_path E year) (bundle_of E (f :: features) year)).
Proof.
  induction years as [|year years IH]; [intros []|].
  rewrite year_loop_step.
  assert (Hhere : In ev (year_events E year) ->
                  exists year0,
                    In year0 (year :: years) /\
                    (ev = HttpGet (wfs_request year0) \/
                     exists f features,
                       outcome (fetch_burnt_areas E year0) = Ok (f :: features) /\
                       ev = WriteJson (bundle_path E year0)
                              (bundle_of E (f :: features) year0))).
  { unfold year_events, year_events_at. intro Hin. exists year. split; [now left|].
    destruct Hin as [<- | Hin]; [now left|].
    destruct (outcome (fetch_burnt_areas E year)) as [[|f features]|e];
      [destruct Hin | | destruct Hin].
    destruct Hin as [<- | []]. right. now exists f, features. }
  assert (Hrest : In ev (events (year_loop E (output_dir_of E) years)) ->
                  exists year0,
                    In year0 (year :: years) /\
                    (ev = HttpGet (wfs_request year0) \/
                     exists f features,
                       outcome (fetch_burnt_areas E year0) = Ok (f :: features) /\
                       ev = WriteJson (bundle_path E year0)
                              (bundle_of E (f :: features) year0))).
  { intro Hin. destruct (IH Hin) as (y & Hy & Hev). exists y. split; [now right | exact Hev]. }
  assert (Hfirst : ev = HttpGet (wfs_request year) ->
                   exists year0,
                     In year0 (year :: years) /\
                     (ev = HttpGet (wfs_request year0) \/
                      exists f features,
                        outcome (fetch_burnt_areas E year0) = Ok (f :: features) /\
                        ev = WriteJson (bundle_path E year0)
                               (bundle_of E (f :: features) year0))).
  { intros ->. exists year. split; now left. }
  destruct (outcome (fetch_burnt_areas E year)) as [[|f features]|e] eqn:Hfetch;
    [ | destruct (can_open E (bundle_path E year)) | ];
    try (intros [Hev | []]; now apply Hfirst);
    destruct (year_loop E (output_dir_of E) years) as [evs r];
    rewrite events_pair in *; intro Hin; apply in_app_or in Hin;
    destruct Hin; auto.
Qed.

Lemma main_event_kinds E ev :
  In ev (events (main E)) ->
  ev = Makedirs (output_dir_of E) \/
  In ev (events (year_loop E (output_dir_of E) [now_year E - 1; now_year E])) \/
  (In ev (events (ci_output E)) /\ outcome (main E) = outcome (ci_output E)
   /\ exists evs, events (main E) = evs ++ events (ci_output E)).
Proof.
  destruct (can_makedirs E (output_dir_of E)) eqn:Hdir.
  - rewrite (main_unfold E Hdir).
    destruct (year_loop E (output_dir_of E) [now_year E - 1; now_year E]) as [evs [[]|e]];
      rewrite !events_pair; intros [<- | Hin]; auto.
    apply in_app_or in Hin. destruct Hin as [Hin | Hin]; auto.
    right. right. split; [exact Hin|]. split; [reflexivity|].
    exists (Makedirs (output_dir_of E) :: evs). reflexivity.
  - unfold main. fold (output_dir_of E). rewrite Hdir. intros [].
Qed.



(** X12. The CI lines are written only by a run that got through both
    years, as its last action, to the file that [GITHUB_OUTPUT] names,
    and they are [current_year=<N>] and [previous_year=<N-1>]; that
    run ends with status 0.  When [GITHUB_OUTPUT] is not set or is
    empty they are never written.  With no other errors and
    [GITHUB_OUTPUT] set they are written. *)
Theorem ci_lines_are_the_last_action E :
  (forall path lines,
      In (AppendText path lines) (events (main E)) ->
      github_output E = Some path /\ path <> "" /\
      lines = github_lines E /\
      outcome (main E) = Ok 0 /\
      exists evs, events (main E) = evs ++ [AppendText path lines]) /\
  (github_output E = None \/ github_output E = Some "" ->
   forall path lines, ~ In (AppendText path lines) (events (main E))) /\
  (forall path,
      no_other_errors E -> github_output E = Some path -> path <> "" ->
      exists evs, events (main E) = evs ++ [AppendText path (github_lines E)]).
Proof.
  assert (Hfirst : forall path lines,
             In (AppendText path lines) (events (main E)) ->
             github_output E = Some path /\ path <> "" /\
             lines = github_lines E /\
             outcome (main E) = Ok 0 /\
             exists evs, events (main E) = evs ++ [AppendText path lines]).
  { intros path lines Hin. apply main_event_kinds in Hin.
    destruct Hin as [Hev | [Hin | (Hin & Hout & evs & Hevs)]]; [discriminate | |].
    - apply year_loop_events in Hin.
      destruct Hin as (year & _ & [Hev | (f & features & _ & Hev)]); discriminate.
    - rewrite Hout, Hevs. clear Hout Hevs. unfold ci_output in *.
      destruct (github_output E) as [p|]; [|destruct Hin].
      destruct (truthy p) eqn:Hp; [|destruct Hin].
      destruct (can_open E p); [|destruct Hin].
      destruct Hin as [Hev | []]. injection Hev as -> <-.
      repeat split; auto.
      + intros ->. discriminate.
      + now exists evs. }
  split; [exact Hfirst|]. split.
  - intros Hunset path lines Hin.
    destruct (Hfirst path lines Hin) as (Hset & Hne & _).
    destruct Hunset as [Hunset | Hunset]; rewrite Hunset in Hset; [discriminate|].
    injection Hset as <-. now apply Hne.
  - intros path Hgood Hset Hne.
    rewrite (main_without_errors E Hgood), events_pair.
    unfold ci_output. rewrite Hset, (nonempty_truthy path Hne).
    destruct Hgood as (_ & Hopen & _). rewrite Hopen.
    exists (Makedirs (output_dir_of E)
            :: year_events E (now_year E - 1) ++ year_events E (now_year E)).
    cbn [events fst app]. now rewrite <- app_assoc.
Qed.

(** Offline the run still writes the CI lines, last. *)
Lemma ci_lines_offline :
  exists evs,
    events (main offline_env)
    = evs ++ [AppendText "/tmp/github_output"
                [ "current_year=2024" ++ String "010" "";
                  "previous_year=2023" ++ String "010" "" ]%string].
Proof.
  apply (proj2 (proj2 (ci_lines_are_the_last_action offline_env)) "/tmp/github_output").
  - repeat split; try reflexivity; intros ? e H; vm_compute in H; congruence.
  - reflexivity.
  - discriminate.
Defined.

Lemma written_paths_app (a b : list Event) :
  written_paths (a ++ b) = written_paths a ++ written_paths b.
Proof. apply flat_map_app. Qed.

Lemma written_paths_ci_output E : written_paths (events (ci_output E)) = [].
Proof.
  unfold ci_output.
  destruct (github_output E) as [path|]; [destruct (truthy path); [destruct (can_open E path)|]|];
    reflexivity.
Qed.

(** X13. A run never writes a bundle file twice: the files it writes
    are, in this order, that of the previous year, that of the current
    year, or both, or none. *)
Theorem main_writes_each_file_once E :
  NoDup (written_paths (events (main E))) /\
  exists years,
    written_paths (events (main E)) = map (bundle_path E) years /\
    In years [ []; [now_year E - 1]; [now_year E]; [now_year E - 1; now_year E] ].
Proof.
  assert (Hyears : exists years,
             written_paths (events (main E)) = map (bundle_path E) years /\
             In years [ []; [now_year E - 1]; [now_year E];
                        [now_year E - 1; now_year E] ]).
  { destruct (can_makedirs E (output_dir_of E)) eqn:Hdir.
    - rewrite (main_unfold E Hdir), !year_loop_step. cbn [year_loop]. unfold ret.
      unfold year_events, year_events_at.
      destruct (outcome (fetch_burnt_areas E (now_year E - 1))) as [[|f fs]|e];
        [ | destruct (can_open E (bundle_path E (now_year E - 1))) | ];
        (destruct (outcome (fetch_burnt_areas E (now_year E))) as [[|g gs]|e'];
         [ | destruct (can_open E (bundle_path E (now_year E))) | ]);
        rewrite events_pair;
        repeat match goal with
          | |- context [written_paths (?x :: ?l)] =>
              change (written_paths (x :: l)) with (written_paths ([x] ++ l))
          end;
        rewrite ?written_paths_app, ?written_paths_ci_output;
        cbn [written_paths flat_map app];
        first [ exists []; split; [reflexivity | cbn [In]; auto 6]
              | exists [now_year E - 1]; split; [reflexivity | cbn [In]; auto 6]
              | exists [now_year E]; split; [reflexivity | cbn [In]; auto 6]
              | exists [now_year E - 1; now_year E]; split;
                [reflexivity | cbn [In]; auto 6] ].
    - exists []. unfold main. fold (output_dir_of E). rewrite Hdir. split; [reflexivity | now left]. }
  split; [|exact Hyears].
  destruct Hyears as (years & -> & Hin).
  assert (Hne : bundle_path E (now_year E - 1) <> bundle_path E (now_year E))
    by (intro H; apply bundle_path_inj in H; lia).
  destruct Hin as [<- | [<- | [<- | [<- | []]]]]; cbn [map].
  - constructor.
  - constructor; [intro Hin; destruct Hin | constructor].
  - constructor; [intro Hin; destruct Hin | constructor].
  - constructor;
      [intro Hin; destruct Hin as [Hin | Hin]; [now apply Hne | destruct Hin] | ].
    constructor; [intro Hin; destruct Hin | constructor].
Qed.
